(** * PoseTrainer log receiver ([tools/log_receiver.py])

    A shallow embedding of the request handler class [LogReceiver]
    (methods [do_POST], [do_OPTIONS], [do_GET]) and of the Python runtime
    operations it calls, followed by the properties of the handler.

    Python strings are sequences of code points, byte strings are lists of
    bytes.  The handler runs in a state-and-exception monad over the
    connection's input stream, the console and the response being built. *)

From Stdlib Require Import List NArith ZArith Bool Ascii String Lia.
From Stdlib.Strings Require Import Byte.
From ExtLib Require Import Structures.Monad.
Import ListNotations.
Import MonadNotation.
Local Open Scope monad_scope.

Set Implicit Arguments.
Set Warnings "-register-all".

(* ================================================================== *)
(** ** Python strings and byte strings *)

Module Py.

(** A [str] is a sequence of code points (lone surrogates included, as in
    Python); [bytes] is a sequence of bytes. *)
Definition str := list N.
Definition bytes := list byte.

(** ASCII literals of the source. *)
Fixpoint lit (s : string) : str :=
  match s with
  | EmptyString => []
  | String c s' => N_of_ascii c :: lit s'
  end.

Definition str_eqb (a b : str) : bool :=
  if list_eq_dec N.eq_dec a b then true else false.

(** [s[lo:hi]] for non-negative [lo <= hi]; out-of-range bounds are clipped,
    as Python slicing does. *)
Definition slice {A} (lo hi : nat) (s : list A) : list A :=
  firstn (hi - lo) (skipn lo s).

(** [format(s, "7")] on a [str]: the default alignment of strings is to the
    left, the fill character is the space, and longer strings are kept. *)
Definition ljust (width : nat) (s : str) : str :=
  s ++ repeat 32%N (width - List.length s).

(** [str.upper] and [str.lower] on ASCII letters. *)
Definition ascii_upper (c : N) : N :=
  if ((97 <=? c) && (c <=? 122))%N then (c - 32)%N else c.
Definition ascii_lower (c : N) : N :=
  if ((65 <=? c) && (c <=? 90))%N then (c + 32)%N else c.

Definition is_ascii (c : N) : bool := (c <? 128)%N.

(** *** The strict UTF-8 codec ([bytes.decode('utf-8')], [str.encode()]) *)

Definition is_cont (b : N) : bool := ((128 <=? b) && (b <=? 191))%N.
Definition in_range (lo hi b : N) : bool := ((lo <=? b) && (b <=? hi))%N.

(** Decoding fails ([None], Python's [UnicodeDecodeError]) on truncated or
    overlong sequences, on encoded surrogates and above U+10FFFF. *)
Fixpoint utf8_decode_N (bs : list N) : option str :=
  match bs with
  | [] => Some []
  | b0 :: r0 =>
    if (b0 <? 128)%N then option_map (cons b0) (utf8_decode_N r0)
    else if in_range 194 223 b0 then
      match r0 with
      | b1 :: r1 =>
        if is_cont b1
        then option_map (cons ((b0 - 192) * 64 + (b1 - 128))%N)
                        (utf8_decode_N r1)
        else None
      | _ => None
      end
    else if in_range 224 239 b0 then
      match r0 with
      | b1 :: b2 :: r2 =>
        let lo := if (b0 =? 224)%N then 160%N else 128%N in
        let hi := if (b0 =? 237)%N then 159%N else 191%N in
        if in_range lo hi b1 && is_cont b2
        then option_map
               (cons ((b0 - 224) * 4096 + (b1 - 128) * 64 + (b2 - 128))%N)
               (utf8_decode_N r2)
        else None
      | _ => None
      end
    else if in_range 240 244 b0 then
      match r0 with
      | b1 :: b2 :: b3 :: r3 =>
        let lo := if (b0 =? 240)%N then 144%N else 128%N in
        let hi := if (b0 =? 244)%N then 143%N else 191%N in
        if in_range lo hi b1 && is_cont b2 && is_cont b3
        then option_map
               (cons ((b0 - 240) * 262144 + (b1 - 128) * 4096
                      + (b2 - 128) * 64 + (b3 - 128))%N)
               (utf8_decode_N r3)
        else None
      | _ => None
      end
    else None
  end.

Definition utf8_decode (bs : bytes) : option str :=
  utf8_decode_N (map Byte.to_N bs).

Definition is_surrogate (c : N) : bool := in_range 55296 57343 c.

Definition is_digit (c : N) : bool := in_range 48 57 c.

(** Encoding of one code point; [None] (Python's [UnicodeEncodeError]) on a
    surrogate. *)
Definition utf8_encode_cp (c : N) : option (list N) :=
  if (c <? 128)%N then Some [c]
  else if (c <? 2048)%N then Some [192 + c / 64; 128 + c mod 64]%N
  else if is_surrogate c then None
  else if (c <? 65536)%N
  then Some [224 + c / 4096; 128 + (c / 64) mod 64; 128 + c mod 64]%N
  else if (c <? 1114112)%N
  then Some [240 + c / 262144; 128 + (c / 4096) mod 64;
             128 + (c / 64) mod 64; 128 + c mod 64]%N
  else None.

Fixpoint utf8_encode_N (s : str) : option (list N) :=
  match s with
  | [] => Some []
  | c :: s' =>
    match utf8_encode_cp c, utf8_encode_N s' with
    | Some bs, Some r => Some (bs ++ r)
    | _, _ => None
    end
  end.

Fixpoint bytes_of_N (l : list N) : option bytes :=
  match l with
  | [] => Some []
  | n :: l' =>
    match Byte.of_N n, bytes_of_N l' with
    | Some b, Some r => Some (b :: r)
    | _, _ => None
    end
  end.

Definition utf8_encode (s : str) : option bytes :=
  match utf8_encode_N s with
  | Some l => bytes_of_N l
  | None => None
  end.

(** The bytes of an ASCII literal ([b'OK']). *)
Definition blit (s : string) : bytes :=
  map byte_of_ascii (list_ascii_of_string s).

(** Decimal digits of a number, as [str(n)] prints a non-negative [int]. *)
Definition digit (n : N) : N := (48 + n mod 10)%N.

Fixpoint digits_fuel (fuel : nat) (n : N) (acc : str) : str :=
  match fuel with
  | O => acc
  | S f =>
    if (n <? 10)%N then digit n :: acc
    else digits_fuel f (n / 10)%N (digit n :: acc)
  end.

Definition str_of_N (n : N) : str := digits_fuel (S (N.size_nat n)) n [].

(** [n] printed with [w] digits, zero filled ([%02d], [%04d], [%06d]). *)
Fixpoint zfill (w : nat) (n : N) : str :=
  match w with
  | O => []
  | S w' => zfill w' (n / 10)%N ++ [digit n]
  end.

End Py.

Import Py.

Notation "` s" := (Py.lit s%string) (at level 1, format "` s").

(* ================================================================== *)
(** ** Values, exceptions and the runtime *)

(** The Python values [json.loads] builds.  A [float] is kept as its
    [repr] text; a [dict] as its items, in order, each key once. *)
Inductive value : Type :=
| VNone
| VBool (b : bool)
| VInt (z : Z)
| VFloat (repr : str)
| VStr (s : str)
| VList (l : list value)
| VDict (items : list (str * value)).

(** [bool(v)], the test of [if v:] and of a conditional expression. *)
Definition truthy (v : value) : bool :=
  match v with
  | VNone => false
  | VBool b => b
  | VInt z => negb (z =? 0)%Z
  | VFloat r => negb (str_eqb r `"0.0" || str_eqb r `"-0.0")
  | VStr s => negb (str_eqb s [])
  | VList l => match l with [] => false | _ => true end
  | VDict d => match d with [] => false | _ => true end
  end.

(** The exceptions the handler can meet; all derive from [Exception].
    A [ValueError] is kept with its message, which can quote text of the
    request.  The messages of the others are ASCII text of CPython's:
    type names, positions, bytes and characters shown by their escapes.
    [JSONDecodeError] stands for whatever [json.loads] raises. *)
Inductive exn : Type :=
| TypeError
| ValueError (message : str)
| AttributeError
| UnicodeDecodeError
| JSONDecodeError
| UnicodeEncodeError
| OverflowError
| MemoryError.

(** Why a [bytes] object of some size cannot be made: [MemoryError], or
    [OverflowError] when the size is too large for a [bytes] object. *)
Inductive refusal : Type :=
| OutOfMemory
| TooLarge.

Definition res (A : Type) : Type := (exn + A)%type.

#[global] Instance Monad_res : Monad res :=
  {| ret := fun _ x => inr x;
     bind := fun _ _ c k => match c with inl e => inl e | inr x => k x end |}.

(** A naive [datetime] and its [isoformat()]:
    [YYYY-MM-DDTHH:MM:SS], followed by [.ffffff] when the microsecond is
    not zero. *)
Record datetime : Type := {
  year : N; month : N; day : N;
  hour : N; minute : N; second : N; microsecond : N
}.

Definition isoformat (d : datetime) : str :=
  zfill 4 (year d) ++ `"-" ++ zfill 2 (month d) ++ `"-" ++ zfill 2 (day d)
  ++ `"T" ++ zfill 2 (hour d) ++ `":" ++ zfill 2 (minute d) ++ `":"
  ++ zfill 2 (second d)
  ++ (if (microsecond d =? 0)%N then []
      else `"." ++ zfill 6 (microsecond d)).

(** What the handler takes from the Python library and from the process
    it runs in. *)
Record runtime : Type := {
  (** [datetime.now()] at the time of the request *)
  now : datetime;
  (** [json.loads(text)]; [None] when it raises *)
  json_loads : str -> option value;
  (** [int(text)]; [None] when it raises [ValueError] *)
  py_int : str -> option Z;
  (** [str.upper] on one code point outside ASCII *)
  upper_nonascii : N -> str;
  (** the code points outside ASCII that the encoding of [sys.stdout]
      has *)
  console_extra : N -> bool;
  (** [format(v, "")] of a value that is not a [str] *)
  py_str : value -> str;
  (** the message of the [ValueError] that [int(text)] raises on a text
      it refuses *)
  int_error : str -> str;
  (** [sys.maxsize], the largest size the interpreter counts *)
  maxsize : N;
  (** what making a [bytes] object of that many bytes raises, if
      anything *)
  allocate : Z -> option refusal;
  (** the texts of the [Server] and [Date] headers *)
  version_string : str;
  date_time_string : str;
  (** [get_local_ip()] and [self.server.server_port] *)
  local_ip : str;
  server_port : N
}.

(* ================================================================== *)
(** ** The handler's world: connection, console, response *)

(** What a [print] leaves on the console: a line of text, or the note
    [Error processing log: <e>] of the [except] clause, kept with its
    exception. *)
Inductive event : Type :=
| Line (text : str)
| Note (e : exn).

Record world : Type := {
  rfile : bytes;                 (** request bytes not read yet *)
  console : list event;          (** what was printed, oldest first *)
  status : option nat;           (** set by [send_response] *)
  headers_out : list (str * str);(** response headers, in order *)
  headers_ended : bool;          (** [end_headers] was called *)
  wfile : bytes                  (** response body written *)
}.

Record request : Type := {
  path : str;
  headers : list (str * str)
}.

(** State and exceptions: what was printed or sent before an exception
    stays. *)
Definition M (A : Type) : Type := world -> res A * world.

#[global] Instance Monad_M : Monad M :=
  {| ret := fun _ x w => (inr x, w);
     bind := fun _ _ c k w =>
       match c w with
       | (inl e, w') => (inl e, w')
       | (inr x, w') => k x w'
       end |}.

Definition raise {A} (e : exn) : M A := fun w => (inl e, w).

Definition lift {A} (r : res A) : M A := fun w => (r, w).

(** [try: c except Exception as e: h e] *)
Definition try_except {A} (c : M A) (h : exn -> M A) : M A :=
  fun w => match c w with
           | (inl e, w') => h e w'
           | (inr x, w') => (inr x, w')
           end.

Definition set_rfile (b : bytes) (w : world) : world :=
  {| rfile := b; console := console w; status := status w;
     headers_out := headers_out w; headers_ended := headers_ended w;
     wfile := wfile w |}.

Definition add_console (e : event) (w : world) : world :=
  {| rfile := rfile w; console := console w ++ [e]; status := status w;
     headers_out := headers_out w; headers_ended := headers_ended w;
     wfile := wfile w |}.

Definition set_status (c : nat) (w : world) : world :=
  {| rfile := rfile w; console := console w; status := Some c;
     headers_out := headers_out w; headers_ended := headers_ended w;
     wfile := wfile w |}.

Definition add_header (k v : str) (w : world) : world :=
  {| rfile := rfile w; console := console w; status := status w;
     headers_out := headers_out w ++ [(k, v)];
     headers_ended := headers_ended w; wfile := wfile w |}.

Definition set_ended (w : world) : world :=
  {| rfile := rfile w; console := console w; status := status w;
     headers_out := headers_out w; headers_ended := true;
     wfile := wfile w |}.

Definition add_wfile (b : bytes) (w : world) : world :=
  {| rfile := rfile w; console := console w; status := status w;
     headers_out := headers_out w; headers_ended := headers_ended w;
     wfile := wfile w ++ b |}.

(** The world when a handler method is entered: the request's remaining
    bytes are [input], the console shows [printed], nothing was sent. *)
Definition fresh (input : bytes) (printed : list event) : world :=
  {| rfile := input; console := printed; status := None; headers_out := [];
     headers_ended := false; wfile := [] |}.

(* ================================================================== *)
(** ** Library operations used by the handler *)

Section Handler.

Variable rt : runtime.

(** [str.upper]: letter by letter; a code point outside ASCII may give
    several. *)
Definition upper (s : str) : str :=
  flat_map (fun c => if is_ascii c then [ascii_upper c]
                     else upper_nonascii rt c) s.

Definition lower_ascii (s : str) : str := map ascii_lower s.

(** [self.headers[name]]: the first header of that name, compared without
    case; [None] when there is none.  Header text is Latin-1, where only
    ASCII letters fold to ASCII letters. *)
Fixpoint header_get (hs : list (str * str)) (name : str) : option str :=
  match hs with
  | [] => None
  | (k, v) :: hs' =>
    if str_eqb (lower_ascii k) (lower_ascii name) then Some v
    else header_get hs' name
  end.

(** [int(x)] where [x] is a header value or [None]. *)
Definition int_of_header (x : option str) : res Z :=
  match x with
  | None => inl TypeError
  | Some s => match py_int rt s with
              | Some n => inr n
              | None => inl (ValueError (int_error rt s))
              end
  end.

(** [self.rfile.read(n)] on a buffered reader whose remaining input is
    [rfile].  A number that is not a size of the interpreter raises
    [OverflowError], a size below [-1] [ValueError].  Otherwise the
    result is a [bytes] object of the size asked for, which has to be
    made: [n] bytes, fewer at the end of the input; everything for
    [-1]. *)
Definition rfile_read (n : Z) : M bytes :=
  fun w =>
    if ((n <? - Z.of_N (maxsize rt) - 1) || (Z.of_N (maxsize rt) <? n))%Z
    then raise OverflowError w
    else if (n <? -1)%Z
    then raise (ValueError `"read length must be non-negative or -1") w
    else
      let size :=
        if (n =? -1)%Z then Z.of_nat (List.length (rfile w)) else n in
      match allocate rt size with
      | Some OutOfMemory => raise MemoryError w
      | Some TooLarge => raise OverflowError w
      | None =>
        if (n =? -1)%Z then (inr (rfile w), set_rfile [] w)
        else (inr (firstn (Z.to_nat n) (rfile w)),
              set_rfile (skipn (Z.to_nat n) (rfile w)) w)
      end.

Definition decode (b : bytes) : res str :=
  match utf8_decode b with
  | Some s => inr s
  | None => inl UnicodeDecodeError
  end.

Definition loads (text : str) : res value :=
  match json_loads rt text with
  | Some v => inr v
  | None => inl JSONDecodeError
  end.

Fixpoint dict_get (items : list (str * value)) (key : str) : option value :=
  match items with
  | [] => None
  | (k, v) :: items' =>
    if str_eqb k key then Some v else dict_get items' key
  end.

(** [v.get(key, default)]: only a [dict] has the method. *)
Definition value_get (v : value) (key : str) (default : value) : res value :=
  match v with
  | VDict items =>
    inr (match dict_get items key with Some x => x | None => default end)
  | _ => inl AttributeError
  end.

(** [v.upper()]: only a [str] has the method. *)
Definition value_upper (v : value) : res str :=
  match v with
  | VStr s => inr (upper s)
  | _ => inl AttributeError
  end.

(** [v[lo:hi]]: a [str] and a [list] can be sliced; the other values raise
    ([TypeError]; for a [dict], [KeyError] from Python 3.12 on). *)
Definition value_slice (lo hi : nat) (v : value) : res value :=
  match v with
  | VStr s => inr (VStr (slice lo hi s))
  | VList l => inr (VList (slice lo hi l))
  | _ => inl TypeError
  end.

(** A replacement field [{v}] of an f-string. *)
Definition fmt (v : value) : str :=
  match v with
  | VStr s => s
  | _ => py_str rt v
  end.

(** The encoding of [sys.stdout] has every ASCII character. *)
Definition encodable (c : N) : bool := is_ascii c || console_extra rt c.

(** [print(text)]: the text is encoded before anything is written, and
    a character the console's encoding lacks raises. *)
Definition print (text : str) : M unit :=
  fun w =>
    if forallb encodable text then (inr tt, add_console (Line text) w)
    else raise UnicodeEncodeError w.

(** Whether the console can show the note [Error processing log: <e>]:
    it can when the message of [e] is ASCII, as all but the messages of
    [ValueError] are. *)
Definition note_encodable (e : exn) : bool :=
  match e with
  | ValueError message => forallb encodable message
  | _ => true
  end.

(** [print(f"Error processing log: {e}")]: like every [print], it raises
    when the console's encoding lacks a character of the text. *)
Definition print_note (e : exn) : M unit :=
  fun w =>
    if note_encodable e then (inr tt, add_console (Note e) w)
    else raise UnicodeEncodeError w.

(** [send_response] writes the status line and the [Server] and [Date]
    headers. *)
Definition send_response (code : nat) : M unit :=
  fun w =>
    (inr tt,
     add_header `"Date" (date_time_string rt)
       (add_header `"Server" (version_string rt) (set_status code w))).

Definition send_header (k v : str) : M unit :=
  fun w => (inr tt, add_header k v w).

Definition end_headers : M unit :=
  fun w => (inr tt, set_ended w).

Definition wfile_write (b : bytes) : M unit :=
  fun w => (inr tt, add_wfile b w).

(* ================================================================== *)
(** ** [class LogReceiver] *)

Definition ESC : N := 27.

(** Color coding for different log levels *)
Definition colors : list (str * str) :=
  [ (`"DEBUG",   ESC :: `"[37m");    (* White *)
    (`"INFO",    ESC :: `"[36m");    (* Cyan *)
    (`"WARNING", ESC :: `"[33m");    (* Yellow *)
    (`"ERROR",   ESC :: `"[31m") ].  (* Red *)

Definition reset_color : str := ESC :: `"[0m".

Fixpoint colors_get (table : list (str * str)) (key default : str) : str :=
  match table with
  | [] => default
  | (k, c) :: table' =>
    if str_eqb k key then c else colors_get table' key default
  end.

(** The five variables bound from [log_entry]. *)
Record fields : Type := {
  timestamp : value;
  level : str;
  message : value;
  tag : value;
  error : value
}.

(** [timestamp = log_entry.get('timestamp', datetime.now().isoformat())]
    and the four assignments after it. *)
Definition get_fields (log_entry : value) : res fields :=
  timestamp <- value_get log_entry `"timestamp" (VStr (isoformat (now rt))) ;;
  level0 <- value_get log_entry `"level" (VStr `"INFO") ;;
  level <- value_upper level0 ;;
  message <- value_get log_entry `"message" (VStr []) ;;
  tag <- value_get log_entry `"tag" (VStr []) ;;
  error <- value_get log_entry `"error" (VStr []) ;;
  ret {| timestamp := timestamp; level := level; message := message;
         tag := tag; error := error |}.

Definition color_of (f : fields) : str := colors_get colors (level f) [].

(** [tag_str = f'[{tag}] ' if tag else ''] *)
Definition tag_str (f : fields) : str :=
  if truthy (tag f) then `"[" ++ fmt (tag f) ++ `"] " else [].

(** [time_str = timestamp[11:19]] and
    [log_line = f"{time_str} {color}{level:7}{reset_color} {tag_str}{message}"] *)
Definition log_line (f : fields) : res str :=
  time_str <- value_slice 11 19 (timestamp f) ;;
  ret (fmt time_str ++ `" " ++ color_of f ++ ljust 7 (level f)
       ++ reset_color ++ `" " ++ tag_str f ++ fmt (message f)).

(** [f"         {color}ERROR:{reset_color} {error}"] *)
Definition error_line (f : fields) : str :=
  `"         " ++ color_of f ++ `"ERROR:" ++ reset_color ++ `" "
  ++ fmt (error f).

(** The body of the [try] statement of [do_POST]. *)
Definition post_logs (req : request) : M unit :=
  content_length <-
    lift (int_of_header (header_get (headers req) `"Content-Length")) ;;
  post_data <- rfile_read content_length ;;
  text <- lift (decode post_data) ;;
  log_entry <- lift (loads text) ;;
  (* Format and print the log *)
  f <- lift (get_fields log_entry) ;;
  line <- lift (log_line f) ;;
  print line ;;
  (if truthy (error f) then print (error_line f) else ret tt) ;;
  send_response 200 ;;
  send_header `"Content-type" `"text/plain" ;;
  send_header `"Access-Control-Allow-Origin" `"*" ;;
  end_headers ;;
  wfile_write (blit "OK").

Definition do_POST (req : request) : M unit :=
  if str_eqb (path req) `"/logs" then
    try_except (post_logs req)
      (fun e =>
         print_note e ;;
         send_response 400 ;;
         end_headers)
  else
    send_response 404 ;;
    end_headers.

(** Handle CORS preflight requests *)
Definition do_OPTIONS (req : request) : M unit :=
  send_response 200 ;;
  send_header `"Access-Control-Allow-Origin" `"*" ;;
  send_header `"Access-Control-Allow-Methods" `"POST, OPTIONS" ;;
  send_header `"Access-Control-Allow-Headers" `"Content-Type" ;;
  end_headers.

(** Simple status page *)
Definition status_page : str :=
  `"
            <html>
            <head><title>PoseTrainer Log Receiver</title></head>
            <body>
                <h1>PoseTrainer Log Receiver</h1>
                <p>Status: Running</p>
                <p>Listening for logs at: <code>POST /logs</code></p>
                <p>Configure your app to send logs to:</p>
                <pre>http://" ++ local_ip rt ++ `":" ++ str_of_N (server_port rt) ++ `"/logs</pre>
            </body>
            </html>
            ".

Definition encode (s : str) : res bytes :=
  match utf8_encode s with
  | Some b => inr b
  | None => inl UnicodeEncodeError
  end.

Definition do_GET (req : request) : M unit :=
  if str_eqb (path req) `"/" then
    let response := status_page in
    send_response 200 ;;
    send_header `"Content-type" `"text/html" ;;
    end_headers ;;
    body <- lift (encode response) ;;
    wfile_write body
  else
    send_response 404 ;;
    end_headers.

(** The methods [LogReceiver] defines a handler for, and the dispatch of
    a request on its method. *)
Inductive method : Type := POST | OPTIONS | GET.

Definition handle (m : method) (req : request) : M unit :=
  match m with
  | POST => do_POST req
  | OPTIONS => do_OPTIONS req
  | GET => do_GET req
  end.

End Handler.

(* ================================================================== *)
(** ** A concrete runtime

    CPython with a UTF-8 console, on 2025-01-15 at 09:30:45.123456.  The
    library functions are given on the inputs the examples below use. *)

Module Sample.

Definition is_space (c : N) : bool :=
  in_range 9 13 c || (c =? 32)%N.

Fixpoint lstrip (s : str) : str :=
  match s with
  | c :: s' => if is_space c then lstrip s' else s
  | [] => []
  end.

Definition strip (s : str) : str := rev (lstrip (rev (lstrip s))).

(** Digits with single underscores between them; [acc] is the value read
    so far and [after_digit] tells whether the last character was a
    digit. *)
Fixpoint int_digits (s : str) (acc : Z) (after_digit : bool) : option Z :=
  match s with
  | [] => if after_digit then Some acc else None
  | c :: s' =>
    if is_digit c then int_digits s' (acc * 10 + Z.of_N (c - 48)) true
    else if (c =? 95)%N && after_digit then int_digits s' acc false
    else None
  end.

(** [int(text)] on ASCII text: white space around, a sign, digits. *)
Definition int (text : str) : option Z :=
  match strip text with
  | 45%N :: s' => option_map Z.opp (int_digits s' 0 false)
  | 43%N :: s' => int_digits s' 0 false
  | s' => int_digits s' 0 false
  end.

(** [str.upper] on the letters of Latin-1; the code points above are
    left as they are. *)
Definition upper_latin1 (c : N) : str :=
  if (c =? 223)%N then `"SS"
  else if (c =? 181)%N then [924%N]
  else if (c =? 255)%N then [376%N]
  else if in_range 224 254 c && negb (c =? 247)%N then [(c - 32)%N]
  else [c].

(** The code points UTF-8 encodes: all but the surrogates. *)
Definition utf8_console (c : N) : bool :=
  negb (is_surrogate c) && (c <? 1114112)%N.

Definition str_of_Z (z : Z) : str :=
  match z with
  | Z0 => `"0"
  | Zpos p => str_of_N (Npos p)
  | Zneg p => `"-" ++ str_of_N (Npos p)
  end.

Fixpoint join (sep : str) (l : list str) : str :=
  match l with
  | [] => []
  | [x] => x
  | x :: l' => x ++ sep ++ join sep l'
  end.

(** [repr(v)]; a [str] is shown between single quotes, which is what
    Python prints for text without quotes, backslashes or control
    characters. *)
Fixpoint repr (v : value) : str :=
  match v with
  | VNone => `"None"
  | VBool true => `"True"
  | VBool false => `"False"
  | VInt z => str_of_Z z
  | VFloat r => r
  | VStr s => `"'" ++ s ++ `"'"
  | VList l => `"[" ++ join `", " (map repr l) ++ `"]"
  | VDict d =>
    `"{" ++ join `", "
              (map (fun kv => `"'" ++ fst kv ++ `"': " ++ repr (snd kv)) d)
    ++ `"}"
  end.

(** The message of [int] on a text it refuses quotes the text, cut after
    200 characters of its [repr]. *)
Definition invalid_literal (text : str) : str :=
  `"invalid literal for int() with base 10: "
  ++ firstn 200 (repr (VStr text)).

(** A [bytes] object needs 33 bytes besides its content; this machine
    gives up to 16 GiB to one object. *)
Definition bytes_object (size : Z) : option refusal :=
  if (9223372036854775807 - 33 <? size)%Z then Some TooLarge
  else if (17179869184 <? size)%Z then Some OutOfMemory
  else None.

(** JSON text, written with ['] where the text has the double quote. *)
Definition json_text (s : string) : str :=
  map (fun c => if (c =? 39)%N then 34%N else c) (lit s).

(** The request bodies of the examples and what [json.loads] makes of
    them; it raises on every other text, [not json] among them. *)
Definition bodies : list (str * value) :=
  [ (json_text "{}", VDict []);
    (json_text "{'level': 5}", VDict [(`"level", VInt 5)]);
    (json_text "5", VInt 5);
    (json_text "[1, 2]", VList [VInt 1; VInt 2]);
    (json_text "{'timestamp': 'yesterday around noon'}",
     VDict [(`"timestamp", VStr `"yesterday around noon")]);
    (json_text "{'level': 'info'}", VDict [(`"level", VStr `"info")]);
    (json_text "{'timestamp': 5}", VDict [(`"timestamp", VInt 5)]);
    (json_text "{'message': NaN}", VDict [(`"message", VFloat `"nan")]);
    (json_text "{'error': '\ud800'}", VDict [(`"error", VStr [55296%N])]);
    (json_text
       "{'level':'error','message':'disk full','tag':'io','error':'ENOSPC'}",
     VDict [(`"level", VStr `"error"); (`"message", VStr `"disk full");
            (`"tag", VStr `"io"); (`"error", VStr `"ENOSPC")]) ].

Fixpoint lookup (table : list (str * value)) (text : str) : option value :=
  match table with
  | [] => None
  | (k, v) :: table' => if str_eqb k text then Some v else lookup table' text
  end.

Definition rt : runtime :=
  {| now := {| year := 2025; month := 1; day := 15;
               hour := 9; minute := 30; second := 45;
               microsecond := 123456 |};
     json_loads := lookup bodies;
     py_int := int;
     upper_nonascii := upper_latin1;
     console_extra := utf8_console;
     py_str := repr;
     int_error := invalid_literal;
     maxsize := 9223372036854775807;
     allocate := bytes_object;
     version_string := `"BaseHTTP/0.6 Python/3.12.3";
     date_time_string := `"Wed, 15 Jan 2025 09:30:45 GMT";
     local_ip := `"192.168.1.20";
     server_port := 8080 |}.

(** The bytes of a request body given as JSON text. *)
Definition body (s : string) : bytes :=
  match utf8_encode (json_text s) with Some b => b | None => [] end.

(** [POST /logs] with the right [Content-Length] for the body. *)
Definition post (b : bytes) : request :=
  {| path := `"/logs";
     headers := [ (`"Content-Type", `"application/json");
                  (`"Content-Length",
                   str_of_N (N.of_nat (List.length b))) ] |}.

(** The requests of the examples. *)

Definition level_5 : bytes := body "{'level': 5}".

Definition unknown : request := {| path := `"/unknown"; headers := [] |}.

Definition noon : list (str * value) :=
  [(`"timestamp", VStr `"yesterday around noon")].

Definition info : bytes := body "{'level': 'info'}".

Definition empty_object : bytes := body "{}".

Definition not_json : bytes := body "not json".

Definition disk_full_body : bytes :=
  body "{'level':'error','message':'disk full','tag':'io','error':'ENOSPC'}".

Definition lone_surrogate : bytes := body "{'error': '\ud800'}".


Definition number_timestamp : bytes := body "{'timestamp': 5}".

Definition nan_message : bytes := body "{'message': NaN}".

(** [POST /logs] with the given [Content-Length] text. *)
Definition post_length (text : str) : request :=
  {| path := `"/logs"; headers := [ (`"Content-Length", text) ] |}.

(** A [Content-Length] of one letter that ASCII does not have. *)
Definition e_acute : request := post_length [233%N].

(** What [json.loads] makes of [disk_full_body]. *)
Definition disk_full_items : list (str * value) :=
  [(`"level", VStr `"error"); (`"message", VStr `"disk full");
   (`"tag", VStr `"io"); (`"error", VStr `"ENOSPC")].

(** A console that has ASCII only. *)
Definition ascii_console : runtime :=
  {| now := now rt;
     json_loads := json_loads rt;
     py_int := py_int rt;
     upper_nonascii := upper_nonascii rt;
     console_extra := fun _ => false;
     py_str := py_str rt;
     int_error := int_error rt;
     maxsize := maxsize rt;
     allocate := allocate rt;
     version_string := version_string rt;
     date_time_string := date_time_string rt;
     local_ip := local_ip rt;
     server_port := server_port rt |}.

End Sample.

(* ================================================================== *)
(** ** Vocabulary of the properties *)

Section Vocabulary.

Variable rt : runtime.

(** *** The shape of a [POST /logs] run *)

(** The [try] body in three blocks: everything up to the composed line,
    the prints, the acknowledgement. *)
Definition receive (req : request) : M (fields * str) :=
  content_length <-
    lift (int_of_header rt (header_get (headers req) `"Content-Length")) ;;
  post_data <- rfile_read rt content_length ;;
  text <- lift (decode post_data) ;;
  log_entry <- lift (loads rt text) ;;
  f <- lift (get_fields rt log_entry) ;;
  line <- lift (log_line rt f) ;;
  ret (f, line).

Definition emit (fl : fields * str) : M unit :=
  print rt (snd fl) ;;
  (if truthy (error (fst fl)) then print rt (error_line rt (fst fl))
   else ret tt).

Definition acknowledge : M unit :=
  send_response rt 200 ;;
  send_header `"Content-type" `"text/plain" ;;
  send_header `"Access-Control-Allow-Origin" `"*" ;;
  end_headers ;;
  wfile_write (blit "OK").

(** The worlds the two answers of [do_POST] leave. *)
Definition answered_400 (e : exn) (w : world) : world :=
  set_ended
    (add_header `"Date" (date_time_string rt)
       (add_header `"Server" (version_string rt)
          (set_status 400 (add_console (Note e) w)))).

Definition answered_200 (w : world) : world :=
  add_wfile (blit "OK")
    (set_ended
       (add_header `"Access-Control-Allow-Origin" `"*"
          (add_header `"Content-type" `"text/plain"
             (add_header `"Date" (date_time_string rt)
                (add_header `"Server" (version_string rt)
                   (set_status 200 w)))))).

(** What a run of [do_POST] on [/logs] comes to, by the result of
    [receive] and by what the console can show.  When the console cannot
    show the note of the [except] clause, the exception of its [print]
    leaves [do_POST] and nothing is sent. *)
Definition logs_result (req : request) (w : world) : res unit :=
  match receive req w with
  | (inl e, _) => if note_encodable rt e then inr tt else inl UnicodeEncodeError
  | (inr _, _) => inr tt
  end.

Definition logs_outcome (req : request) (w : world) : world :=
  match receive req w with
  | (inl e, w1) => if note_encodable rt e then answered_400 e w1 else w1
  | (inr (f, line), w1) =>
    if forallb (encodable rt) line then
      let w2 := add_console (Line line) w1 in
      if truthy (error f) then
        if forallb (encodable rt) (error_line rt f)
        then answered_200 (add_console (Line (error_line rt f)) w2)
        else answered_400 UnicodeEncodeError w2
      else answered_200 w2
    else answered_400 UnicodeEncodeError w1
  end.

(** Two worlds that differ at most in the input left to read. *)
Definition same_output (w w1 : world) : Prop :=
  console w1 = console w /\ status w1 = status w
  /\ headers_out w1 = headers_out w /\ headers_ended w1 = headers_ended w
  /\ wfile w1 = wfile w.

(** The request carries the body [b]: its [Content-Length] is an integer
    and reading that many bytes gives [b]. *)
Definition carries (req : request) (w : world) (b : bytes) : Prop :=
  exists n,
    int_of_header rt (header_get (headers req) `"Content-Length") = inr n
    /\ fst (rfile_read rt n w) = inr b.

(** What [receive] does with the bytes it has read. *)
Definition process_body (b : bytes) : res (fields * str) :=
  text <- decode b ;;
  log_entry <- loads rt text ;;
  f <- get_fields rt log_entry ;;
  line <- log_line rt f ;;
  ret (f, line).

Definition or_default (o : option value) (default : value) : value :=
  match o with Some v => v | None => default end.

(** The record [get_fields] builds from an object whose level is the text
    [s]. *)
Definition fields_of (items : list (str * value)) (s : str) : fields :=
  {| timestamp :=
       or_default (dict_get items `"timestamp") (VStr (isoformat (now rt)));
     level := upper rt s;
     message := or_default (dict_get items `"message") (VStr []);
     tag := or_default (dict_get items `"tag") (VStr []);
     error := or_default (dict_get items `"error") (VStr []) |}.

(** *** The two answers of [do_POST] on [/logs] *)

(** The headers [send_response] writes by itself. *)
Definition library_headers : list (str * str) :=
  [ (`"Server", version_string rt); (`"Date", date_time_string rt) ].

Definition bad_request (w' : world) : Prop :=
  status w' = Some 400
  /\ headers_out w' = library_headers
  /\ headers_ended w' = true
  /\ wfile w' = [].

Definition ok_response (w' : world) : Prop :=
  status w' = Some 200
  /\ headers_out w' =
       library_headers ++ [ (`"Content-type", `"text/plain");
                            (`"Access-Control-Allow-Origin", `"*") ]
  /\ headers_ended w' = true
  /\ wfile w' = blit "OK".

(** Nothing of an answer has been sent. *)
Definition no_response (w' : world) : Prop :=
  status w' = None
  /\ headers_out w' = []
  /\ headers_ended w' = false
  /\ wfile w' = [].

(** *** The four ways a [POST /logs] ends

    [r] is what [do_POST] returns or raises and [w'] the world it
    leaves. *)

Inductive ending (req : request) (input : bytes) (printed : list event)
    (r : res unit) (w' : world) : Prop :=
| Escaped (e : exn) :
    r = inl UnicodeEncodeError ->
    fst (receive req (fresh input printed)) = inl e ->
    note_encodable rt e = false ->
    no_response w' ->
    console w' = printed ->
    ending req input printed r w'
| Refused (e : exn) :
    r = inr tt ->
    (fst (receive req (fresh input printed)) = inl e
     /\ note_encodable rt e = true)
    \/ (exists f line,
          fst (receive req (fresh input printed)) = inr (f, line)
          /\ forallb (encodable rt) line = false
          /\ e = UnicodeEncodeError) ->
    bad_request w' ->
    console w' = printed ++ [Note e] ->
    ending req input printed r w'
| Interrupted (f : fields) (line : str) :
    r = inr tt ->
    fst (receive req (fresh input printed)) = inr (f, line) ->
    forallb (encodable rt) line = true ->
    truthy (error f) = true ->
    forallb (encodable rt) (error_line rt f) = false ->
    bad_request w' ->
    console w' = printed ++ [Line line; Note UnicodeEncodeError] ->
    ending req input printed r w'
| Acknowledged (f : fields) (line : str) :
    r = inr tt ->
    fst (receive req (fresh input printed)) = inr (f, line) ->
    forallb (encodable rt) line = true ->
    (truthy (error f) = true ->
     forallb (encodable rt) (error_line rt f) = true) ->
    ok_response w' ->
    console w' =
      printed ++ Line line ::
        (if truthy (error f) then [Line (error_line rt f)] else []) ->
    ending req input printed r w'.

(** *** Which objects pass the extraction and the formatting *)

Definition str_or_absent (o : option value) : bool :=
  match o with
  | None | Some (VStr _) => true
  | _ => false
  end.

Definition sliceable_or_absent (o : option value) : bool :=
  match o with
  | None | Some (VStr _) | Some (VList _) => true
  | _ => false
  end.

(** The composed line of a record whose time string is [time_str]. *)
Definition line_of (f : fields) (time_str : value) : str :=
  fmt rt time_str ++ `" " ++ color_of f ++ ljust 7 (level f)
  ++ reset_color ++ `" " ++ tag_str rt f ++ fmt rt (message f).

(** *** The time of day in [isoformat] *)

Definition clock (d : datetime) : str :=
  zfill 2 (hour d) ++ `":" ++ zfill 2 (minute d) ++ `":"
  ++ zfill 2 (second d).

(** *** Bodies that are refused *)

(** A body that is not UTF-8, not JSON, or not a JSON object. *)
Definition malformed (b : bytes) : Prop :=
  utf8_decode b = None
  \/ (exists text, utf8_decode b = Some text /\ json_loads rt text = None)
  \/ (exists text v,
        utf8_decode b = Some text /\ json_loads rt text = Some v
        /\ forall items, v <> VDict items).

(** *** Views of the response and of the console *)

Fixpoint starts_with (prefix s : str) : bool :=
  match prefix, s with
  | [], _ => true
  | p :: prefix', c :: s' => (p =? c)%N && starts_with prefix' s'
  | _ :: _, [] => false
  end.

(** The CORS headers of a response. *)
Definition cors_headers (hs : list (str * str)) : list (str * str) :=
  filter (fun h => starts_with `"Access-Control-" (fst h)) hs.

(** The lines of text on the console, the notes of the [except] clause
    left out. *)
Definition text_lines (evs : list event) : list str :=
  flat_map (fun e => match e with Line t => [t] | Note _ => [] end) evs.

(** The answer to an unknown route: status 404, no header but the
    library's, no body, nothing read or printed. *)
Definition not_found (input : bytes) (printed : list event) (w : world)
    : Prop :=
  status w = Some 404
  /\ headers_out w = library_headers
  /\ headers_ended w = true
  /\ wfile w = []
  /\ rfile w = input
  /\ console w = printed.



End Vocabulary.

(* ================================================================== *)
(** ** The specification's wording, where the handler differs *)

Module Stated.

(** Decoding is lenient: every body that decodes as a JSON object is
    answered 200. *)
Definition lenient_decode (rt : runtime) (req : request) (input : bytes)
    (printed : list event) : Prop :=
  forall b text items,
    path req = `"/logs" ->
    carries rt req (fresh input printed) b ->
    utf8_decode b = Some text ->
    json_loads rt text = Some (VDict items) ->
    status (snd (do_POST rt req (fresh input printed))) = Some 200.

(** Every path other than [/logs] and [/] gives 404, for all methods. *)
Definition unknown_route_404 (rt : runtime) (m : method) (req : request)
    (input : bytes) (printed : list event) : Prop :=
  path req <> `"/logs" ->
  path req <> `"/" ->
  status (snd (handle rt m req (fresh input printed))) = Some 404.

(** Text of the shape [YYYY-MM-DDTHH:MM:SS], whatever follows. *)
Definition iso8601 (s : str) : bool :=
  match s with
  | y1 :: y2 :: y3 :: y4 :: d1 :: m1 :: m2 :: d2 :: a1 :: a2 :: t
    :: h1 :: h2 :: c1 :: n1 :: n2 :: c2 :: s1 :: s2 :: _ =>
    forallb is_digit [y1; y2; y3; y4; m1; m2; a1; a2; h1; h2; n1; n2; s1; s2]
    && forallb (N.eqb 45) [d1; d2]
    && ((t =? 84) || (t =? 32))%N
    && forallb (N.eqb 58) [c1; c2]
  | _ => false
  end.

(** A timestamp that is absent or not ISO-8601 is replaced by the current
    time. *)
Definition timestamp_defaulted (rt : runtime) (items : list (str * value))
    : Prop :=
  forall f,
    get_fields rt (VDict items) = inr f ->
    match dict_get items `"timestamp" with
    | None => True
    | Some (VStr s) => iso8601 s = false
    | Some _ => True
    end ->
    timestamp f = VStr (isoformat (now rt)).

(** The level with the padding spaces before it. *)
Definition rjust (width : nat) (s : str) : str :=
  repeat 32%N (width - List.length s) ++ s.

Definition level_left_padded (rt : runtime) (f : fields) : Prop :=
  forall line,
    log_line rt f = inr line ->
    exists time_str,
      value_slice 11 19 (timestamp f) = inr time_str
      /\ line = fmt rt time_str ++ `" " ++ color_of f ++ rjust 7 (level f)
                ++ reset_color ++ `" " ++ tag_str rt f
                ++ fmt rt (message f).

(** A request answered 400 has left no line of its record on the
    console. *)
Definition failure_leaves_no_line (rt : runtime) (req : request)
    (input : bytes) (printed : list event) : Prop :=
  path req = `"/logs" ->
  status (snd (do_POST rt req (fresh input printed))) = Some 400 ->
  text_lines (console (snd (do_POST rt req (fresh input printed))))
  = text_lines printed.

(** *** JSON text

    The grammar of RFC 8259, as a recognizer: [scan] gives what follows
    a value, the members of an object or the elements of an array. *)

Definition is_ws (c : N) : bool :=
  ((c =? 32) || (c =? 9) || (c =? 10) || (c =? 13))%N.

Fixpoint skip_ws (s : str) : str :=
  match s with
  | c :: s' => if is_ws c then skip_ws s' else s
  | [] => []
  end.

Definition is_hex (c : N) : bool :=
  is_digit c || in_range 65 70 c || in_range 97 102 c.

(** The characters after the opening quote of a string, up to the
    closing one. *)
Fixpoint string_tail (s : str) : option str :=
  match s with
  | [] => None
  | c :: s1 =>
    if (c =? 34)%N then Some s1
    else if (c =? 92)%N then
      match s1 with
      | [] => None
      | e :: s2 =>
        if existsb (N.eqb e) [34; 92; 47; 98; 102; 110; 114; 116]%N
        then string_tail s2
        else if (e =? 117)%N then
          match s2 with
          | h1 :: h2 :: h3 :: h4 :: s3 =>
            if forallb is_hex [h1; h2; h3; h4] then string_tail s3
            else None
          | _ => None
          end
        else None
      end
    else if (c <? 32)%N then None
    else string_tail s1
  end.

Fixpoint skip_digits (s : str) : str :=
  match s with
  | c :: s' => if is_digit c then skip_digits s' else s
  | [] => []
  end.

(** One digit at least. *)
Definition some_digits (s : str) : option str :=
  match s with
  | c :: s' => if is_digit c then Some (skip_digits s') else None
  | [] => None
  end.

Definition fraction (s : str) : option str :=
  match s with
  | c :: s' => if (c =? 46)%N then some_digits s' else Some s
  | [] => Some s
  end.

Definition exponent (s : str) : option str :=
  match s with
  | c :: s1 =>
    if ((c =? 101) || (c =? 69))%N then
      match s1 with
      | g :: s2 =>
        if ((g =? 43) || (g =? 45))%N then some_digits s2
        else some_digits s1
      | [] => None
      end
    else Some s
  | [] => Some s
  end.

(** [0] or digits that do not begin with [0]. *)
Definition int_part (s : str) : option str :=
  match s with
  | c :: s' =>
    if (c =? 48)%N then Some s'
    else if is_digit c then Some (skip_digits s')
    else None
  | [] => None
  end.

(** A sign or none, the integer part, a fraction or none, an exponent
    or none. *)
Definition number (s : str) : option str :=
  match
    match s with
    | c :: s' => if (c =? 45)%N then int_part s' else int_part s
    | [] => None
    end
  with
  | Some s1 =>
    match fraction s1 with
    | Some s2 => exponent s2
    | None => None
    end
  | None => None
  end.

Definition word (w s : str) : option str :=
  if starts_with w s then Some (skipn (List.length w) s) else None.

Inductive part : Type := AValue | Members | Elements.

Fixpoint scan (fuel : nat) (p : part) (s : str) : option str :=
  match fuel with
  | O => None
  | S fuel' =>
    match p with
    | AValue =>
      match skip_ws s with
      | [] => None
      | c :: s1 =>
        if (c =? 123)%N then
          match skip_ws s1 with
          | c' :: s2 => if (c' =? 125)%N then Some s2
                        else scan fuel' Members s1
          | [] => None
          end
        else if (c =? 91)%N then
          match skip_ws s1 with
          | c' :: s2 => if (c' =? 93)%N then Some s2
                        else scan fuel' Elements s1
          | [] => None
          end
        else if (c =? 34)%N then string_tail s1
        else if (c =? 116)%N then word `"true" (c :: s1)
        else if (c =? 102)%N then word `"false" (c :: s1)
        else if (c =? 110)%N then word `"null" (c :: s1)
        else number (c :: s1)
      end
    | Members =>
      match skip_ws s with
      | c :: s1 =>
        if (c =? 34)%N then
          match string_tail s1 with
          | Some s2 =>
            match skip_ws s2 with
            | c2 :: s3 =>
              if (c2 =? 58)%N then
                match scan fuel' AValue s3 with
                | Some s4 =>
                  match skip_ws s4 with
                  | c4 :: s5 =>
                    if (c4 =? 44)%N then scan fuel' Members s5
                    else if (c4 =? 125)%N then Some s5
                    else None
                  | [] => None
                  end
                | None => None
                end
              else None
            | [] => None
            end
          | None => None
          end
        else None
      | [] => None
      end
    | Elements =>
      match scan fuel' AValue s with
      | Some s1 =>
        match skip_ws s1 with
        | c1 :: s2 =>
          if (c1 =? 44)%N then scan fuel' Elements s2
          else if (c1 =? 93)%N then Some s2
          else None
        | [] => None
        end
      | None => None
      end
    end
  end.

(** One JSON value and white space around it.  Each step of [scan] but
    the one into the elements of an array takes a character, so twice
    the length of the text is fuel enough. *)
Definition rfc8259 (text : str) : bool :=
  match scan (2 * List.length text + 2) AValue text with
  | Some rest => match skip_ws rest with [] => true | _ :: _ => false end
  | None => false
  end.

(** A body that is not UTF-8, not JSON text, or JSON text for a value
    that is not an object. *)
Definition not_an_object (rt : runtime) (b : bytes) : Prop :=
  utf8_decode b = None
  \/ (exists text, utf8_decode b = Some text /\ rfc8259 text = false)
  \/ (exists text v,
        utf8_decode b = Some text /\ json_loads rt text = Some v
        /\ forall items, v <> VDict items).

(** Every such body is answered 400 with an empty body. *)
Definition invalid_json_400 (rt : runtime) (req : request) (input : bytes)
    (printed : list event) : Prop :=
  forall b,
    path req = `"/logs" ->
    carries rt req (fresh input printed) b ->
    not_an_object rt b ->
    status (snd (do_POST rt req (fresh input printed))) = Some 400
    /\ wfile (snd (do_POST rt req (fresh input printed))) = [].

(** Every record that is decoded is answered 200 with the body [OK]. *)
Definition decoded_is_accepted (rt : runtime) (req : request)
    (input : bytes) (printed : list event) : Prop :=
  forall b text entry f,
    path req = `"/logs" ->
    carries rt req (fresh input printed) b ->
    utf8_decode b = Some text ->
    json_loads rt text = Some entry ->
    get_fields rt entry = inr f ->
    status (snd (do_POST rt req (fresh input printed))) = Some 200
    /\ wfile (snd (do_POST rt req (fresh input printed))) = blit "OK".




End Stated.

(* ================================================================== *)
(** ** [get_local_ip] and the banner of [main] *)

(** What the operating system answers to the socket calls of
    [get_local_ip]: whether [socket.socket] and [connect] succeed, and
    the IPv4 address and the port that [getsockname] gives, when it gives
    one. *)
Record sockets : Type := {
  socket_ok : bool;
  connect_ok : bool;
  sockname : option ((byte * byte * byte * byte) * N)
}.

(** The text of an IPv4 address: its four numbers, with dots. *)
Definition dotted (a : byte * byte * byte * byte) : str :=
  match a with
  | (a1, a2, a3, a4) =>
    str_of_N (Byte.to_N a1) ++ `"." ++ str_of_N (Byte.to_N a2) ++ `"."
    ++ str_of_N (Byte.to_N a3) ++ `"." ++ str_of_N (Byte.to_N a4)
  end.

(** Socket calls, run on the number of sockets the process holds open;
    [None] is a raised exception. *)
Definition Net (A : Type) : Type := nat -> option A * nat.

#[global] Instance Monad_Net : Monad Net :=
  {| ret := fun _ x n => (Some x, n);
     bind := fun _ _ c k n =>
       match c n with
       | (None, n') => (None, n')
       | (Some x, n') => k x n'
       end |}.

Section Startup.

Variable os : sockets.

(** [socket.socket(socket.AF_INET, socket.SOCK_DGRAM)] *)
Definition socket_socket : Net unit :=
  fun n => if socket_ok os then (Some tt, S n) else (None, n).

(** [s.connect(('8.8.8.8', 80))] *)
Definition connect : Net unit :=
  fun n => (if connect_ok os then Some tt else None, n).

(** [s.getsockname()] *)
Definition getsockname : Net (str * N) :=
  fun n =>
    (match sockname os with
     | Some (a, port) => Some (dotted a, port)
     | None => None
     end, n).

Definition close : Net unit := fun n => (Some tt, Nat.pred n).

(** [with socket.socket(...) as s: body]: the socket is closed when the
    body is left, by [return] or by an exception. *)
Definition with_socket {A} (body : Net A) : Net A :=
  fun n =>
    match socket_socket n with
    | (None, n') => (None, n')
    | (Some _, n1) =>
      match body n1 with
      | (r, n2) => (r, snd (close n2))
      end
    end.

(** Get the local IP address *)
Definition get_local_ip : nat -> str * nat :=
  fun n =>
    match with_socket
            (connect ;;
             name <- getsockname ;;
             ret (fst name)) n with
    | (Some ip, n') => (ip, n')
    | (None, n') => (`"127.0.0.1", n')
    end.

End Startup.

Definition rocket : N := 128640.
Definition mobile_phone : N := 128241.
Definition clipboard : N := 128203.

Section Banner.

Variable rt : runtime.

(** [main], from its first [print] to the last one before
    [serve_forever]; [port] is [args.port]. *)
Definition announce (local_ip : str) (port : N) : M unit :=
  print rt (repeat 61%N 60) ;;
  print rt `"PoseTrainer Log Receiver" ;;
  print rt (repeat 61%N 60) ;;
  print rt (rocket :: `" Server running at http://" ++ local_ip ++ `":"
            ++ str_of_N port ++ `"/") ;;
  print rt (mobile_phone :: `" Configure your app to send logs to:") ;;
  print rt (`"   http://" ++ local_ip ++ `":" ++ str_of_N port ++ `"/logs") ;;
  print rt [] ;;
  print rt (clipboard :: `" Waiting for logs... (Press Ctrl+C to stop)") ;;
  print rt (repeat 45%N 60).

(** The address clients are told to post to. *)
Definition logs_url (local_ip : str) (port : N) : str :=
  `"http://" ++ local_ip ++ `":" ++ str_of_N port ++ `"/logs".



(** *** Further vocabulary *)

Definition contains (needle text : str) : Prop :=
  exists before after, text = before ++ needle ++ after.

(** What [read(n)] gives on the input, and what it leaves. *)
Definition taken (n : Z) (input : bytes) : res bytes * bytes :=
  if ((n <? - Z.of_N (maxsize rt) - 1) || (Z.of_N (maxsize rt) <? n))%Z
  then (inl OverflowError, input)
  else if (n <? -1)%Z
  then (inl (ValueError `"read length must be non-negative or -1"), input)
  else
    match allocate rt (if (n =? -1)%Z then Z.of_nat (List.length input)
                       else n) with
    | Some OutOfMemory => (inl MemoryError, input)
    | Some TooLarge => (inl OverflowError, input)
    | None =>
      if (n =? -1)%Z then (inr input, [])
      else (inr (firstn (Z.to_nat n) input), skipn (Z.to_nat n) input)
    end.

(** What [receive] makes of the request and what it leaves unread, by
    the [Content-Length] header. *)
Definition read_plan (req : request) (input : bytes)
    : res (fields * str) * bytes :=
  match int_of_header rt (header_get (headers req) `"Content-Length") with
  | inl e => (inl e, input)
  | inr n =>
    match taken n input with
    | (inl e, rest) => (inl e, rest)
    | (inr b, rest) => (process_body rt b, rest)
    end
  end.

(** Header lists that differ in the letter case of the names only. *)
Definition same_headers (hs hs' : list (str * str)) : Prop :=
  Forall2 (fun h h' => lower_ascii (fst h) = lower_ascii (fst h')
                       /\ snd h = snd h') hs hs'.

End Banner.

Section Verdict.

Variable rt : runtime.

(** The status and the console events that the result of [receive]
    leads to. *)
Definition verdict (r : res (fields * str)) : option nat * list event :=
  match r with
  | inl e => if note_encodable rt e then (Some 400, [Note e]) else (None, [])
  | inr (f, line) =>
    if forallb (encodable rt) line then
      if truthy (error f) then
        if forallb (encodable rt) (error_line rt f)
        then (Some 200, [Line line; Line (error_line rt f)])
        else (Some 400, [Line line; Note UnicodeEncodeError])
      else (Some 200, [Line line])
    else (Some 400, [Note UnicodeEncodeError])
  end.

(** What [do_POST] returns or raises on [/logs]. *)
Definition returned (r : res (fields * str)) : res unit :=
  match r with
  | inl e => if note_encodable rt e then inr tt else inl UnicodeEncodeError
  | inr _ => inr tt
  end.

(** The world a [POST /logs] leaves, from what was read and the
    verdict. *)
Definition answered (left : bytes) (v : option nat * list event)
    (printed : list event) : world :=
  {| rfile := left;
     console := printed ++ snd v;
     status := fst v;
     headers_out :=
       match fst v with
       | None => []
       | Some code =>
         library_headers rt
         ++ (if Nat.eqb code 200
             then [ (`"Content-type", `"text/plain");
                    (`"Access-Control-Allow-Origin", `"*") ]
             else [])
       end;
     headers_ended := match fst v with None => false | Some _ => true end;
     wfile := match fst v with
              | Some 200 => blit "OK"
              | _ => []
              end |}.

End Verdict.


(** The examples of the further properties: an operating system that
    gives the address 192.168.1.20, one that has no route, a console
    that has Latin-1 only. *)

Module Host.

Definition up : sockets :=
  {| socket_ok := true; connect_ok := true;
     sockname := Some ((xc0, xa8, x01, x14), 54321%N) |}.

Definition down : sockets :=
  {| socket_ok := true; connect_ok := false; sockname := None |}.

Definition latin1 : runtime :=
  {| now := now Sample.rt;
     json_loads := json_loads Sample.rt;
     py_int := py_int Sample.rt;
     upper_nonascii := upper_nonascii Sample.rt;
     console_extra := fun c => (c <? 256)%N;
     py_str := py_str Sample.rt;
     int_error := int_error Sample.rt;
     maxsize := maxsize Sample.rt;
     allocate := allocate Sample.rt;
     version_string := version_string Sample.rt;
     date_time_string := date_time_string Sample.rt;
     local_ip := local_ip Sample.rt;
     server_port := server_port Sample.rt |}.

Definition root : request := {| path := `"/"; headers := [] |}.

(** The body [{}] followed by bytes of another request. *)
Definition two_requests : bytes := Sample.empty_object ++ blit "POST /x".

Definition accented : str := [233; 8364; 128640]%N.

Definition accented_bytes : bytes :=
  match utf8_encode accented with Some b => b | None => [] end.

End Host.

(* ================================================================== *)
(** ** Facts about strings *)

Lemma str_eqb_eq (a b : str) : str_eqb a b = true <-> a = b.
Proof.
  unfold str_eqb. destruct (list_eq_dec N.eq_dec a b); split; congruence.
Qed.

Lemma str_eqb_refl (a : str) : str_eqb a a = true.
Proof. now apply str_eqb_eq. Qed.

Lemma str_eqb_neq (a b : str) : str_eqb a b = false <-> a <> b.
Proof.
  unfold str_eqb. destruct (list_eq_dec N.eq_dec a b); split; congruence.
Qed.

Lemma text_lines_app (a b : list event) :
  text_lines (a ++ b) = text_lines a ++ text_lines b.
Proof. unfold text_lines. now rewrite flat_map_app. Qed.

(* ================================================================== *)
(** ** The shape of a [POST /logs] run *)

Section Blocks.

Variable rt : runtime.

Lemma post_logs_blocks (req : request) (w : world) :
  post_logs rt req w
  = (fl <- receive rt req ;; emit rt fl ;; acknowledge rt) w.
Proof.
  unfold post_logs, receive, emit. cbv [bind ret Monad_M lift fst snd].
  destruct (int_of_header rt _) as [e|n]; [reflexivity|].
  destruct (rfile_read rt n w) as [[e|b] w1]; [reflexivity|].
  destruct (decode b) as [e|text]; [reflexivity|].
  destruct (loads rt text) as [e|entry]; [reflexivity|].
  destruct (get_fields rt entry) as [e|f]; [reflexivity|].
  destruct (log_line rt f) as [e|line]; [reflexivity|].
  destruct (print rt line w1) as [[e|[]] w2]; [reflexivity|].
  destruct (truthy (error f)); [|reflexivity].
  destruct (print rt (error_line rt f) w2) as [[e|[]] w3]; reflexivity.
Qed.

Lemma do_POST_logs (req : request) (w : world) :
  path req = `"/logs" ->
  do_POST rt req w = (logs_result rt req w, logs_outcome rt req w).
Proof.
  intros Hp. unfold do_POST. rewrite Hp, str_eqb_refl.
  unfold try_except. rewrite post_logs_blocks.
  unfold logs_result, logs_outcome. cbv [bind ret Monad_M].
  destruct (receive rt req w) as [[e|[f line]] w1].
  { unfold print_note. destruct (note_encodable rt e); reflexivity. }
  unfold emit, print. cbv [bind ret Monad_M fst snd].
  destruct (forallb (encodable rt) line); [|reflexivity].
  destruct (truthy (error f)); [|reflexivity].
  destruct (forallb (encodable rt) (error_line rt f)); reflexivity.
Qed.

End Blocks.

(* ================================================================== *)
(** ** Facts about the blocks *)

Section BlockFacts.

Variable rt : runtime.

Lemma same_output_refl (w : world) : same_output w w.
Proof. repeat split. Qed.

Lemma rfile_read_same_output (n : Z) (w : world) :
  same_output w (snd (rfile_read rt n w)).
Proof.
  unfold rfile_read.
  destruct (_ || _); [apply same_output_refl|].
  destruct (n <? -1)%Z; [apply same_output_refl|].
  destruct (allocate rt _) as [[]|]; try apply same_output_refl.
  destruct (n =? -1)%Z; repeat split.
Qed.

Lemma receive_same_output (req : request) (w : world) :
  same_output w (snd (receive rt req w)).
Proof.
  unfold receive. cbv [bind ret Monad_M lift].
  destruct (int_of_header rt _) as [e|n]; [apply same_output_refl|].
  pose proof (rfile_read_same_output n w) as Hs.
  destruct (rfile_read rt n w) as [[e|b] w1]; [exact Hs|].
  destruct (decode b) as [e|text]; [exact Hs|].
  destruct (loads rt text) as [e|entry]; [exact Hs|].
  destruct (get_fields rt entry) as [e|f]; [exact Hs|].
  destruct (log_line rt f) as [e|line]; exact Hs.
Qed.

Lemma receive_carries (req : request) (w : world) (b : bytes) :
  carries rt req w b -> fst (receive rt req w) = process_body rt b.
Proof.
  intros (n & Hn & Hb). unfold receive, process_body.
  cbv [bind ret Monad_M Monad_res lift]. rewrite Hn.
  destruct (rfile_read rt n w) as [[e|b'] w1]; cbn [fst] in Hb;
    [discriminate|].
  injection Hb as ->.
  destruct (decode b) as [e|text]; [reflexivity|].
  destruct (loads rt text) as [e|entry]; [reflexivity|].
  destruct (get_fields rt entry) as [e|f]; [reflexivity|].
  destruct (log_line rt f) as [e|line]; reflexivity.
Qed.

Lemma get_fields_dict (items : list (str * value)) :
  get_fields rt (VDict items) =
  match or_default (dict_get items `"level") (VStr `"INFO") with
  | VStr s => inr (fields_of rt items s)
  | _ => inl AttributeError
  end.
Proof.
  unfold get_fields, fields_of, or_default.
  cbv [bind ret Monad_res value_get value_upper].
  destruct (dict_get items `"level") as [[]|]; reflexivity.
Qed.

Lemma get_fields_not_dict (v : value) :
  (forall items, v <> VDict items) -> get_fields rt v = inl AttributeError.
Proof.
  intros H. destruct v; try reflexivity. now elim (H items).
Qed.

Lemma answered_400_bad_request (e : exn) (w : world) :
  headers_out w = [] -> wfile w = [] -> bad_request rt (answered_400 rt e w).
Proof.
  intros Hh Hw. unfold bad_request. cbn. rewrite Hh, Hw. repeat split.
Qed.

Lemma answered_200_ok_response (w : world) :
  headers_out w = [] -> wfile w = [] -> ok_response rt (answered_200 rt w).
Proof.
  intros Hh Hw. unfold ok_response. cbn. rewrite Hh, Hw. repeat split.
Qed.

Lemma inr_eq {A B} (x y : B) : @inr A B x = inr y -> x = y.
Proof. congruence. Qed.

Lemma app_cons_app {A} (l : list A) (x : A) (r : list A) :
  (l ++ [x]) ++ r = l ++ x :: r.
Proof. now rewrite <- app_assoc. Qed.

Lemma logs_ending (req : request) (input : bytes) (printed : list event) :
  ending rt req input printed
    (logs_result rt req (fresh input printed))
    (logs_outcome rt req (fresh input printed)).
Proof.
  unfold logs_result, logs_outcome.
  pose proof (receive_same_output req (fresh input printed))
    as (Hc & Hst & Hh & Hend & Hw).
  cbn [fresh console status headers_out headers_ended wfile]
    in Hc, Hst, Hh, Hend, Hw.
  destruct (receive rt req (fresh input printed)) as [[e|[f line]] w1] eqn:Hr;
    cbn [fst snd] in *.
  - destruct (note_encodable rt e) eqn:Hn.
    + apply Refused with (e := e); rewrite ?Hr; [reflexivity | now left | |].
      * now apply answered_400_bad_request.
      * cbn. now rewrite Hc.
    + apply Escaped with (e := e); rewrite ?Hr; auto.
      now repeat split.
  - destruct (forallb (encodable rt) line) eqn:Hl.
    + destruct (truthy (error f)) eqn:Ht.
      * destruct (forallb (encodable rt) (error_line rt f)) eqn:He.
        -- apply Acknowledged with (f := f) (line := line);
             rewrite ?Hr; auto.
           ++ now apply answered_200_ok_response.
           ++ rewrite Ht. cbn. rewrite Hc. now rewrite !app_cons_app.
        -- apply Interrupted with (f := f) (line := line);
             rewrite ?Hr; auto.
           ++ now apply answered_400_bad_request.
           ++ cbn. rewrite Hc. now rewrite !app_cons_app.
      * apply Acknowledged with (f := f) (line := line); rewrite ?Hr; auto.
        -- congruence.
        -- now apply answered_200_ok_response.
        -- rewrite Ht. cbn. now rewrite Hc.
    + apply Refused with (e := UnicodeEncodeError); rewrite ?Hr.
      * reflexivity.
      * right. now exists f, line.
      * now apply answered_400_bad_request.
      * cbn. now rewrite Hc.
Qed.

Lemma log_line_eq (f : fields) :
  log_line rt f =
  match value_slice 11 19 (timestamp f) with
  | inr time_str => inr (line_of rt f time_str)
  | inl e => inl e
  end.
Proof.
  unfold log_line. cbv [bind ret Monad_res].
  destruct (value_slice 11 19 (timestamp f)); reflexivity.
Qed.

Lemma process_body_object (b : bytes) (text : str)
    (items : list (str * value)) :
  utf8_decode b = Some text ->
  json_loads rt text = Some (VDict items) ->
  process_body rt b =
  match get_fields rt (VDict items) with
  | inl e => inl e
  | inr f => match log_line rt f with
             | inl e => inl e
             | inr line => inr (f, line)
             end
  end.
Proof.
  intros Hd Hl. unfold process_body, decode, loads. rewrite Hd.
  cbv [bind ret Monad_res]. rewrite Hl. reflexivity.
Qed.

(** **** Objects *)

Lemma get_fields_level (v : value) (f : fields) :
  get_fields rt v = inr f -> exists s, level f = upper rt s.
Proof.
  destruct v; try discriminate. rewrite get_fields_dict.
  destruct (or_default _ _); try discriminate.
  intros [= <-]. now exists s.
Qed.

Lemma log_line_fields_of (items : list (str * value)) (s : str) :
  log_line rt (fields_of rt items s) =
  match or_default (dict_get items `"timestamp")
                   (VStr (isoformat (now rt))) with
  | VStr t => inr (line_of rt (fields_of rt items s) (VStr (slice 11 19 t)))
  | VList l => inr (line_of rt (fields_of rt items s) (VList (slice 11 19 l)))
  | _ => inl TypeError
  end.
Proof.
  rewrite log_line_eq. cbn [timestamp fields_of].
  destruct (or_default _ _); reflexivity.
Qed.

(** The extraction and the formatting of an object succeed exactly when
    its level is a [str] or absent and its timestamp can be sliced or is
    absent. *)
Lemma object_passes (items : list (str * value)) :
  (exists f line,
     get_fields rt (VDict items) = inr f /\ log_line rt f = inr line)
  <-> str_or_absent (dict_get items `"level") = true
      /\ sliceable_or_absent (dict_get items `"timestamp") = true.
Proof.
  rewrite get_fields_dict. split.
  - intros (f & line & Hf & Hl).
    destruct (dict_get items `"level") as [[]|] eqn:Hlv; cbn in Hf;
      try discriminate; (split; [reflexivity|]);
      injection Hf as <-; rewrite log_line_fields_of in Hl;
      destruct (dict_get items `"timestamp") as [[]|]; cbn in Hl;
      try discriminate; reflexivity.
  - intros (Hlv & Hts).
    destruct (dict_get items `"level") as [[]|] eqn:Hl; try discriminate;
      cbn [or_default];
      destruct (dict_get items `"timestamp") as [[]|] eqn:Ht;
      try discriminate;
      (eexists; eexists; split;
       [reflexivity | rewrite log_line_fields_of, Ht; reflexivity]).
Qed.

Lemma isoformat_time (d : datetime) : slice 11 19 (isoformat d) = clock d.
Proof.
  unfold isoformat, clock, slice.
  cbn [zfill app lit skipn firstn Nat.sub]. reflexivity.
Qed.

Lemma digit_ascii (n : N) : is_ascii (digit n) = true.
Proof.
  unfold is_ascii, digit. apply N.ltb_lt.
  pose proof (N.mod_upper_bound n 10). lia.
Qed.

Lemma zfill_ascii (w : nat) (n : N) : forallb is_ascii (zfill w n) = true.
Proof.
  revert n. induction w as [|w IH]; intros n; [reflexivity|].
  cbn [zfill]. rewrite forallb_app, IH. cbn [forallb]. now rewrite digit_ascii.
Qed.


Lemma clock_ascii (d : datetime) : forallb is_ascii (clock d) = true.
Proof.
  unfold clock. rewrite !forallb_app, !zfill_ascii. reflexivity.
Qed.

Lemma receive_line (req : request) (w : world) (f : fields) (line : str) :
  fst (receive rt req w) = inr (f, line) ->
  log_line rt f = inr line
  /\ exists log_entry, get_fields rt log_entry = inr f.
Proof.
  unfold receive. cbv [bind ret Monad_M lift].
  destruct (int_of_header rt _) as [e|n]; [discriminate|].
  destruct (rfile_read rt n w) as [[e|b] w1]; [discriminate|].
  destruct (decode b) as [e|text]; [discriminate|].
  destruct (loads rt text) as [e|entry]; [discriminate|].
  destruct (get_fields rt entry) as [e|f0] eqn:Hf; [discriminate|].
  destruct (log_line rt f0) as [e|line0] eqn:Hl; [discriminate|].
  cbn [fst]. intros [= <- <-]. split; [exact Hl | now exists entry].
Qed.

Lemma get_fields_raises (v : value) (e : exn) :
  get_fields rt v = inl e -> e = AttributeError.
Proof.
  destruct v; try (cbn; congruence).
  rewrite get_fields_dict. destruct (or_default _ _); congruence.
Qed.

Lemma log_line_raises (f : fields) (e : exn) :
  log_line rt f = inl e -> e = TypeError.
Proof.
  rewrite log_line_eq. destruct (timestamp f); cbn; congruence.
Qed.

(** What the body can raise is shown by every console. *)
Lemma process_body_raises (b : bytes) (e : exn) :
  process_body rt b = inl e ->
  e = UnicodeDecodeError \/ e = JSONDecodeError \/ e = AttributeError
  \/ e = TypeError.
Proof.
  unfold process_body, decode, loads. cbv [bind ret Monad_res].
  destruct (utf8_decode b) as [text|]; [|intros [= <-]; auto].
  destruct (json_loads rt text) as [entry|]; [|intros [= <-]; auto].
  destruct (get_fields rt entry) as [e'|f] eqn:Hf.
  { apply get_fields_raises in Hf. intros [= <-]. auto. }
  destruct (log_line rt f) as [e'|line] eqn:Hl; [|discriminate].
  apply log_line_raises in Hl. intros [= <-]. auto.
Qed.

Lemma process_body_note (b : bytes) (e : exn) :
  process_body rt b = inl e -> note_encodable rt e = true.
Proof.
  intros H. apply process_body_raises in H.
  destruct H as [-> | [-> | [-> | ->]]]; reflexivity.
Qed.

Lemma rfile_read_taken (n : Z) (w : world) :
  rfile_read rt n w
  = (fst (taken rt n (rfile w)), set_rfile (snd (taken rt n (rfile w))) w).
Proof.
  assert (Hw : set_rfile (rfile w) w = w) by now destruct w.
  unfold rfile_read, taken, raise.
  destruct (_ || _); cbn [fst snd]; [now rewrite Hw|].
  destruct (n <? -1)%Z; cbn [fst snd]; [now rewrite Hw|].
  destruct (allocate rt _) as [[]|]; cbn [fst snd]; try now rewrite Hw.
  destruct (n =? -1)%Z; reflexivity.
Qed.

Lemma taken_raises (n : Z) (input : bytes) (e : exn) :
  fst (taken rt n input) = inl e ->
  snd (taken rt n input) = input
  /\ (e = OverflowError \/ e = MemoryError
      \/ e = ValueError `"read length must be non-negative or -1").
Proof.
  unfold taken.
  destruct (_ || _); [intros [= <-]; auto|].
  destruct (n <? -1)%Z; [intros [= <-]; auto|].
  destruct (allocate rt _) as [[]|]; try (intros [= <-]; now auto).
  destruct (n =? -1)%Z; discriminate.
Qed.

Lemma taken_note (n : Z) (input : bytes) (e : exn) :
  fst (taken rt n input) = inl e -> note_encodable rt e = true.
Proof.
  intros H. apply taken_raises in H.
  destruct H as (_ & [-> | [-> | ->]]); reflexivity.
Qed.

Lemma receive_eq (req : request) (w : world) :
  receive rt req w =
  match int_of_header rt (header_get (headers req) `"Content-Length") with
  | inl e => (inl e, w)
  | inr n =>
    match rfile_read rt n w with
    | (inl e, w1) => (inl e, w1)
    | (inr b, w1) => (process_body rt b, w1)
    end
  end.
Proof.
  unfold receive, process_body. cbv [bind ret Monad_M Monad_res lift].
  destruct (int_of_header rt _) as [e|n]; [reflexivity|].
  destruct (rfile_read rt n w) as [[e|b] w1]; [reflexivity|].
  destruct (decode b) as [e|text]; [reflexivity|].
  destruct (loads rt text) as [e|entry]; [reflexivity|].
  destruct (get_fields rt entry) as [e|f]; [reflexivity|].
  destruct (log_line rt f) as [e|line]; reflexivity.
Qed.

Lemma receive_plan (req : request) (input : bytes) (printed : list event) :
  receive rt req (fresh input printed)
  = (fst (read_plan rt req input),
     set_rfile (snd (read_plan rt req input)) (fresh input printed)).
Proof.
  rewrite receive_eq. unfold read_plan.
  destruct (int_of_header rt _) as [e|n]; [reflexivity|].
  rewrite rfile_read_taken. cbn [rfile fresh].
  destruct (taken rt n input) as [[e|b] rest]; reflexivity.
Qed.

(** The one exception a console can fail to show is the [ValueError] of
    [int] on the [Content-Length]. *)
Lemma read_plan_escape (req : request) (input : bytes) (e : exn) :
  fst (read_plan rt req input) = inl e ->
  note_encodable rt e = false ->
  exists v,
    header_get (headers req) `"Content-Length" = Some v
    /\ py_int rt v = None
    /\ e = ValueError (int_error rt v)
    /\ snd (read_plan rt req input) = input.
Proof.
  unfold read_plan, int_of_header.
  destruct (header_get (headers req) `"Content-Length") as [v|].
  - destruct (py_int rt v) as [n|] eqn:Hv.
    + destruct (taken rt n input) as [[e'|b] rest] eqn:Ht; cbn [fst snd].
      * intros [= <-] Hn.
        assert (H : fst (taken rt n input) = inl e') by now rewrite Ht.
        apply taken_note in H. congruence.
      * intros H Hn. apply process_body_note in H. congruence.
    + cbn [fst snd]. intros [= <-] _. now exists v.
  - cbn [fst]. intros [= <-]. discriminate.
Qed.

Lemma process_body_fields (b : bytes) (text : str) (entry : value)
    (f : fields) :
  utf8_decode b = Some text ->
  json_loads rt text = Some entry ->
  get_fields rt entry = inr f ->
  process_body rt b =
  match log_line rt f with
  | inl e => inl e
  | inr line => inr (f, line)
  end.
Proof.
  intros Hd Hl Hf. unfold process_body, decode, loads. rewrite Hd.
  cbv [bind ret Monad_res]. rewrite Hl, Hf. reflexivity.
Qed.

Lemma process_body_malformed (b : bytes) :
  malformed rt b ->
  exists e, process_body rt b = inl e
            /\ (e = UnicodeDecodeError \/ e = JSONDecodeError
                \/ e = AttributeError).
Proof.
  unfold process_body, decode, loads. cbv [bind ret Monad_res].
  intros [Hd | [(text & Hd & Hl) | (text & v & Hd & Hl & Hv)]]; rewrite Hd.
  - exists UnicodeDecodeError. auto.
  - rewrite Hl. exists JSONDecodeError. auto.
  - rewrite Hl, (get_fields_not_dict Hv). exists AttributeError. auto.
Qed.

End BlockFacts.

(* ================================================================== *)
(** ** Properties of the handler *)

Section Properties.

Variable rt : runtime.

(** C8: [do_OPTIONS] answers every request, to [/logs] as to any other
    path and whatever the request's body, with status 200, the three CORS
    headers after the library's own two, and no body; it reads nothing
    from the connection and prints nothing. *)
Theorem do_OPTIONS_preflight (req : request) (input : bytes)
    (printed : list event) :
  let r := do_OPTIONS rt req (fresh input printed) in
  fst r = inr tt
  /\ status (snd r) = Some 200
  /\ headers_out (snd r) =
       library_headers rt
       ++ [ (`"Access-Control-Allow-Origin", `"*");
            (`"Access-Control-Allow-Methods", `"POST, OPTIONS");
            (`"Access-Control-Allow-Headers", `"Content-Type") ]
  /\ cors_headers (headers_out (snd r)) =
       [ (`"Access-Control-Allow-Origin", `"*");
         (`"Access-Control-Allow-Methods", `"POST, OPTIONS");
         (`"Access-Control-Allow-Headers", `"Content-Type") ]
  /\ headers_ended (snd r) = true
  /\ wfile (snd r) = []
  /\ rfile (snd r) = input
  /\ console (snd r) = printed.
Proof.
  cbv [do_OPTIONS bind ret Monad_M send_response send_header end_headers
       fst snd].
  repeat split; reflexivity.
Qed.

(** C2, as amended: a [POST] or a [GET] request whose path is neither
    [/logs] nor [/] is answered 404 with an empty body. *)
Theorem unknown_path_404 (m : method) (req : request) (input : bytes)
    (printed : list event) :
  m = POST \/ m = GET ->
  path req <> `"/logs" ->
  path req <> `"/" ->
  let r := handle rt m req (fresh input printed) in
  fst r = inr tt /\ not_found rt input printed (snd r).
Proof.
  intros Hm Hlogs Hroot.
  apply str_eqb_neq in Hlogs. apply str_eqb_neq in Hroot.
  destruct Hm as [-> | ->]; unfold handle, do_POST, do_GET;
    rewrite ?Hlogs, ?Hroot;
    cbv [bind ret Monad_M send_response end_headers fst snd not_found];
    repeat split; reflexivity.
Qed.


(** Running [do_POST] on [/logs] and naming the way it ends. *)
Ltac post_ending Hp E :=
  match goal with
  | |- context [do_POST ?rt ?req (fresh ?input ?printed)] =>
    rewrite (do_POST_logs rt req (fresh input printed) Hp);
    cbn [fst snd];
    pose proof (logs_ending rt req input printed) as E
  end.

(** C6, as amended: a [POST /logs] whose body is not valid UTF-8, is
    text that [json.loads] refuses, or is JSON for a value other than an
    object is answered 400 with an empty body; the console gets the note
    of the [except] clause and no line of a record. *)
Theorem malformed_body_400 (req : request) (input : bytes)
    (printed : list event) (b : bytes) :
  path req = `"/logs" ->
  carries rt req (fresh input printed) b ->
  malformed rt b ->
  let r := do_POST rt req (fresh input printed) in
  fst r = inr tt
  /\ status (snd r) = Some 400
  /\ wfile (snd r) = []
  /\ headers_out (snd r) = library_headers rt
  /\ exists e, (e = UnicodeDecodeError \/ e = JSONDecodeError
                \/ e = AttributeError)
               /\ console (snd r) = printed ++ [Note e].
Proof.
  intros Hp Hb Hm. cbv zeta. post_ending Hp E.
  apply receive_carries in Hb.
  destruct (process_body_malformed Hm) as (e & He & Hkind).
  rewrite He in Hb.
  destruct E as [e' Hres Hr Hn _ _
                | e' Hres [[Hr _] | (f & line & Hr & _)]
                    (Hs & Hh & _ & Hw) Hc
                | f line _ Hr | f line _ Hr]; try congruence.
  - assert (e' = e) by congruence. subst e'.
    destruct Hkind as [-> | [-> | ->]]; discriminate.
  - assert (e' = e) by congruence. subst e'.
    repeat split; auto. exists e. auto.
Qed.

(** C7, as amended: for a record that is decoded (the body is UTF-8
    text that [json.loads] accepts and the five fields are extracted),
    [do_POST] answers 200 exactly when the line is formatted and the
    console can encode what is printed.  The answer 200 has the headers
    [Content-type: text/plain] and [Access-Control-Allow-Origin: *] after
    the library's own, and the body [OK]; otherwise the answer is 400
    with an empty body. *)
Theorem accepted_response (req : request) (input : bytes)
    (printed : list event) (b : bytes) (text : str) (entry : value)
    (f : fields) :
  path req = `"/logs" ->
  carries rt req (fresh input printed) b ->
  utf8_decode b = Some text ->
  json_loads rt text = Some entry ->
  get_fields rt entry = inr f ->
  let r := do_POST rt req (fresh input printed) in
  let shown :=
    exists line,
      log_line rt f = inr line
      /\ forallb (encodable rt) line = true
      /\ (truthy (error f) = true ->
          forallb (encodable rt) (error_line rt f) = true) in
  fst r = inr tt
  /\ (status (snd r) = Some 200 <-> shown)
  /\ (status (snd r) = Some 200 ->
      headers_out (snd r) =
        library_headers rt ++ [ (`"Content-type", `"text/plain");
                                (`"Access-Control-Allow-Origin", `"*") ]
      /\ header_get (headers_out (snd r)) `"Content-Type"
         = Some `"text/plain"
      /\ header_get (headers_out (snd r)) `"Access-Control-Allow-Origin"
         = Some `"*"
      /\ wfile (snd r) = blit "OK")
  /\ (status (snd r) <> Some 200 ->
      status (snd r) = Some 400
      /\ headers_out (snd r) = library_headers rt
      /\ wfile (snd r) = []).
Proof.
  intros Hp Hb Hd Hl Hf. cbv zeta. post_ending Hp E.
  apply receive_carries in Hb.
  rewrite (process_body_fields rt b Hd Hl Hf) in Hb.
  destruct E as [e' Hres Hr Hn _ _
                | e' Hres Hdisj (Hs & Hh & _ & Hw) _
                | f' line' Hres Hr Henc' Ht' Hno (Hs & Hh & _ & Hw) _
                | f' line' Hres Hr Henc' Herr' (Hs & Hh & _ & Hw) _].
  - exfalso. rewrite Hb in Hr.
    destruct (log_line rt f) as [e|line] eqn:Hline; [|discriminate].
    apply log_line_raises in Hline. subst e.
    assert (e' = TypeError) by congruence. subst e'. discriminate.
  - split; [exact Hres|]. split; [|split]; [|congruence|auto].
    split; [congruence|]. intros (line & Hline & Henc & Herr).
    rewrite Hline in Hb.
    destruct Hdisj as [[Hr _] | (f' & line' & Hr & Hno & _)];
      rewrite Hb in Hr; [discriminate|].
    apply inr_eq, pair_equal_spec in Hr. destruct Hr as [<- <-]. congruence.
  - split; [exact Hres|]. split; [|split]; [|congruence|auto].
    split; [congruence|]. intros (line & Hline & Henc & Herr).
    rewrite Hline in Hb. rewrite Hb in Hr.
    apply inr_eq, pair_equal_spec in Hr. destruct Hr as [<- <-].
    rewrite (Herr Ht') in Hno. discriminate.
  - split; [exact Hres|]. split; [|split]; [| |congruence].
    + split; [|intros _; exact Hs]. intros _.
      destruct (log_line rt f) as [e|line] eqn:Hline;
        rewrite Hb in Hr; [discriminate|].
      apply inr_eq, pair_equal_spec in Hr. destruct Hr as [<- <-].
      now exists line.
    + intros _. rewrite Hh. repeat split; auto.
Qed.

(** C9, as amended: when [POST /logs] answers 400, the error line of the
    record was not printed, and its primary line was printed only if the
    failure came from printing the error line, which the console cannot
    encode; after any other failure the console shows no line of the
    record.  An answer of 200 comes after the record's line or lines. *)
Theorem failure_console (req : request) (input : bytes)
    (printed : list event) :
  path req = `"/logs" ->
  let r := do_POST rt req (fresh input printed) in
  (status (snd r) = Some 400 ->
   (exists e, console (snd r) = printed ++ [Note e])
   \/ (exists f line,
         fst (receive rt req (fresh input printed)) = inr (f, line)
         /\ truthy (error f) = true
         /\ forallb (encodable rt) (error_line rt f) = false
         /\ console (snd r) = printed ++ [Line line; Note UnicodeEncodeError]))
  /\ (status (snd r) = Some 200 ->
      exists f line,
        fst (receive rt req (fresh input printed)) = inr (f, line)
        /\ console (snd r) =
             printed ++ Line line ::
               (if truthy (error f) then [Line (error_line rt f)] else [])).
Proof.
  intros Hp. cbv zeta. post_ending Hp E.
  destruct E as [e' _ _ _ (Hs & _) _
                | e' _ _ (Hs & _) Hc
                | f line _ Hr _ Ht Hn (Hs & _) Hc
                | f line _ Hr _ _ (Hs & _) Hc]; split; intros H; try congruence.
  - left. now exists e'.
  - right. now exists f, line.
  - now exists f, line.
Qed.

(** C1, as amended: for a body that decodes as a JSON object, an absent
    field takes its default and a present field is used as it is, of
    whatever type.  The extraction and the formatting succeed exactly when
    the level is absent or a string and the timestamp is absent, a string
    or an array; the request is then answered 200 if the console can
    encode what is printed.  Any other object is answered 400. *)
Theorem object_fields_policy (req : request) (input : bytes)
    (printed : list event) (b : bytes) (text : str)
    (items : list (str * value)) :
  path req = `"/logs" ->
  carries rt req (fresh input printed) b ->
  utf8_decode b = Some text ->
  json_loads rt text = Some (VDict items) ->
  let r := do_POST rt req (fresh input printed) in
  let passes := str_or_absent (dict_get items `"level")
                && sliceable_or_absent (dict_get items `"timestamp") in
  (passes = false ->
   status (snd r) = Some 400
   /\ exists e, console (snd r) = printed ++ [Note e])
  /\ (passes = true ->
      exists s line,
        or_default (dict_get items `"level") (VStr `"INFO") = VStr s
        /\ get_fields rt (VDict items) = inr (fields_of rt items s)
        /\ log_line rt (fields_of rt items s) = inr line
        /\ (status (snd r) = Some 200 <->
            forallb (encodable rt) line = true
            /\ (truthy (error (fields_of rt items s)) = true ->
                forallb (encodable rt)
                        (error_line rt (fields_of rt items s)) = true))).
Proof.
  intros Hp Hb Hd Hl. cbv zeta. post_ending Hp E.
  apply receive_carries in Hb. pose proof Hb as Hb0.
  rewrite (process_body_object rt b Hd Hl) in Hb.
  pose proof (object_passes rt items) as Hpass.
  split; intros Hok.
  - assert (Hno : exists e, fst (receive rt req (fresh input printed)) = inl e).
    { rewrite Hb.
      destruct (get_fields rt (VDict items)) as [e|f] eqn:Hf;
        [now exists e|].
      destruct (log_line rt f) as [e|line] eqn:Hline; [now exists e|].
      destruct Hpass as [Hpass _].
      destruct Hpass as [H1 H2]; [now exists f, line|].
      rewrite H1, H2 in Hok. discriminate. }
    destruct Hno as (e & He).
    destruct E as [e' _ Hr Hn _ _ | e' _ _ (Hs & _) Hc
                  | f line _ Hr | f line _ Hr]; try congruence.
    { rewrite Hb0 in Hr. apply process_body_note in Hr. congruence. }
    split; [exact Hs | now exists e'].
  - apply andb_true_iff in Hok. apply Hpass in Hok.
    destruct Hok as (f & line & Hf & Hline).
    rewrite Hf, Hline in Hb.
    rewrite get_fields_dict in Hf.
    destruct (or_default (dict_get items `"level") (VStr `"INFO"))
      as [| | | |s| |] eqn:Hlv; try discriminate.
    injection Hf as <-.
    exists s, line. rewrite get_fields_dict, Hlv.
    split; [reflexivity|]. split; [reflexivity|]. split; [exact Hline|].
    split.
    + intros H200.
      destruct E as [e' _ _ _ (Hs & _) _
                    | e' _ _ (Hs & _) _ | f line' _ Hr _ _ _ (Hs & _) _
                    | f line' _ Hr Henc Herr _ _]; try congruence.
      rewrite Hb in Hr. injection Hr as <- <-. now split.
    + intros (Henc & Herr).
      destruct E as [e' _ Hr _ _ _
                    | e' _ [[Hr _] | (f & line' & Hr & Hno & _)] _ _
                    | f line' _ Hr _ Ht Hno _ _
                    | f line' _ Hr _ _ (Hs & _) _]; try congruence.
      rewrite Hb in Hr. injection Hr as <- <-.
      rewrite (Herr Ht) in Hno. discriminate.
Qed.

(** C3, as amended: the timestamp of the record is the current time only
    when the object has no [timestamp]; a timestamp that is present is
    used as it is, and when it is a string, ISO-8601 or not, the time
    printed is its characters 11 to 18. *)
Theorem timestamp_used_as_given (items : list (str * value)) (f : fields) :
  get_fields rt (VDict items) = inr f ->
  (dict_get items `"timestamp" = None ->
   timestamp f = VStr (isoformat (now rt))
   /\ log_line rt f = inr (line_of rt f (VStr (clock (now rt)))))
  /\ (forall v, dict_get items `"timestamp" = Some v -> timestamp f = v)
  /\ (forall s, dict_get items `"timestamp" = Some (VStr s) ->
      log_line rt f = inr (line_of rt f (VStr (slice 11 19 s)))).
Proof.
  rewrite get_fields_dict.
  destruct (or_default (dict_get items `"level") (VStr `"INFO"));
    try discriminate.
  intros [= <-]. repeat split.
  - cbn [timestamp fields_of]. now rewrite H.
  - rewrite log_line_fields_of, H. cbn [or_default].
    now rewrite isoformat_time.
  - intros v H. cbn [timestamp fields_of]. now rewrite H.
  - intros t H. now rewrite log_line_fields_of, H.
Qed.

(** C4, as amended: in the primary line of an accepted record the
    uppercased level of the request's object is followed by spaces up to
    a width of 7 (it is aligned to the left, and a longer level is kept
    whole), between the color of that level and the reset code, after
    the time string cut from the object's timestamp and before the
    bracketed tag and the message of the object. *)
Theorem level_padded_on_the_right (req : request) (input : bytes)
    (printed : list event) (b : bytes) (text : str)
    (items : list (str * value)) :
  path req = `"/logs" ->
  carries rt req (fresh input printed) b ->
  utf8_decode b = Some text ->
  json_loads rt text = Some (VDict items) ->
  let r := do_POST rt req (fresh input printed) in
  status (snd r) = Some 200 ->
  exists s time_str,
    or_default (dict_get items `"level") (VStr `"INFO") = VStr s
    /\ value_slice 11 19
         (or_default (dict_get items `"timestamp")
                     (VStr (isoformat (now rt)))) = inr time_str
    /\ let f := fields_of rt items s in
       console (snd r) =
         printed
         ++ Line (fmt rt time_str ++ `" "
                  ++ colors_get colors (upper rt s) []
                  ++ (upper rt s
                      ++ repeat 32%N (7 - List.length (upper rt s)))
                  ++ reset_color ++ `" " ++ tag_str rt f
                  ++ fmt rt (message f))
            :: (if truthy (error f) then [Line (error_line rt f)] else [])
    /\ List.length (upper rt s
                    ++ repeat 32%N (7 - List.length (upper rt s)))
       = Nat.max 7 (List.length (upper rt s)).
Proof.
  intros Hp Hb Hd Hl. cbv zeta. post_ending Hp E. intros H200.
  apply receive_carries in Hb.
  rewrite (process_body_object rt b Hd Hl), get_fields_dict in Hb.
  destruct E as [e' _ _ _ (Hs & _) _
                | e' _ _ (Hs & _) _ | f line _ Hr _ _ _ (Hs & _) _
                | f line _ Hr _ _ _ Hc]; try congruence.
  rewrite Hb in Hr.
  destruct (or_default (dict_get items `"level") (VStr `"INFO"))
    as [| | | |s| |]; try discriminate.
  rewrite log_line_eq in Hr. cbn [timestamp fields_of] in Hr.
  destruct (value_slice 11 19 _) as [e|time_str]; [discriminate|].
  apply inr_eq, pair_equal_spec in Hr. destruct Hr as [<- <-].
  exists s, time_str. repeat split; [exact Hc|].
  rewrite length_app, repeat_length. lia.
Qed.




End Properties.

(* ================================================================== *)
(** ** What a [POST /logs] reads and answers *)

Section ReadingFacts.

Variable rt : runtime.

Lemma verdict_cases (r : res (fields * str)) :
  (returned rt r = inr tt
   /\ (fst (verdict rt r) = Some 200 \/ fst (verdict rt r) = Some 400))
  \/ (returned rt r = inl UnicodeEncodeError
      /\ verdict rt r = (None, [])
      /\ exists e, r = inl e /\ note_encodable rt e = false).
Proof.
  unfold verdict, returned. destruct r as [e|[f line]].
  { destruct (note_encodable rt e) eqn:Hn; [left; auto|].
    right. repeat split. now exists e. }
  left. split; [reflexivity|].
  destruct (forallb (encodable rt) line); [|now right].
  destruct (truthy (error f)); [|now left].
  destruct (forallb (encodable rt) (error_line rt f)); [now left|now right].
Qed.

Lemma verdict_raised (e : exn) :
  note_encodable rt e = true ->
  verdict rt (inl e) = (Some 400, [Note e]) /\ returned rt (inl e) = inr tt.
Proof. intros H. unfold verdict, returned. now rewrite H. Qed.

Lemma logs_outcome_answered (req : request) (input : bytes)
    (printed : list event) :
  logs_outcome rt req (fresh input printed)
  = answered rt (snd (read_plan rt req input))
             (verdict rt (fst (read_plan rt req input))) printed.
Proof.
  unfold logs_outcome. rewrite receive_plan.
  destruct (read_plan rt req input) as [r rest]. cbn [fst snd].
  unfold verdict.
  assert (Hfresh : forall (v : option nat * list event) (w : world),
             console w = printed ++ snd v -> rfile w = rest ->
             status w = fst v ->
             headers_out w = headers_out (answered rt rest v printed) ->
             headers_ended w = headers_ended (answered rt rest v printed) ->
             wfile w = wfile (answered rt rest v printed) ->
             w = answered rt rest v printed).
  { intros v [rf co st ho he wf] Hc Hr Hs Hh He Hw.
    cbn [console rfile status headers_out headers_ended wfile] in *.
    subst. reflexivity. }
  destruct r as [e|[f line]].
  { destruct (note_encodable rt e); apply Hfresh; try reflexivity.
    cbn [snd console set_rfile fresh]. now rewrite app_nil_r. }
  destruct (forallb (encodable rt) line); [|now apply Hfresh].
  destruct (truthy (error f)); [|now apply Hfresh].
  destruct (forallb (encodable rt) (error_line rt f));
    apply Hfresh; try reflexivity;
    cbn [answered_200 answered_400 add_wfile set_ended add_header set_status
         add_console set_rfile fresh console snd];
    now rewrite <- !app_assoc.
Qed.

Lemma logs_result_returned (req : request) (input : bytes)
    (printed : list event) :
  logs_result rt req (fresh input printed)
  = returned rt (fst (read_plan rt req input)).
Proof.
  unfold logs_result, returned. rewrite receive_plan.
  destruct (read_plan rt req input) as [[e|fl] rest]; reflexivity.
Qed.

Lemma do_POST_answered (req : request) (input : bytes)
    (printed : list event) :
  path req = `"/logs" ->
  do_POST rt req (fresh input printed)
  = (returned rt (fst (read_plan rt req input)),
     answered rt (snd (read_plan rt req input))
              (verdict rt (fst (read_plan rt req input))) printed).
Proof.
  intros Hp.
  now rewrite (do_POST_logs rt _ _ Hp), logs_outcome_answered,
    logs_result_returned.
Qed.

(** When [read] raises, the answer is 400 and nothing has been read. *)
Lemma do_POST_read_raises (req : request) (input : bytes)
    (printed : list event) (n : Z) (e : exn) :
  path req = `"/logs" ->
  int_of_header rt (header_get (headers req) `"Content-Length") = inr n ->
  fst (taken rt n input) = inl e ->
  do_POST rt req (fresh input printed)
  = (inr tt, answered rt input (Some 400, [Note e]) printed).
Proof.
  intros Hp Hn Ht. rewrite (do_POST_answered _ input printed Hp).
  unfold read_plan. rewrite Hn.
  destruct (taken_raises rt n input Ht) as [Hrest _].
  destruct (@verdict_raised e (taken_note rt n input Ht)) as [Hv Hr].
  destruct (taken rt n input) as [[e'|b] rest]; cbn [fst snd] in *;
    [|discriminate].
  injection Ht as ->. subst rest. now rewrite Hv, Hr.
Qed.

(** When [read] gives bytes, what follows depends on them only. *)
Lemma do_POST_read_gives (req : request) (input : bytes)
    (printed : list event) (n : Z) (b rest : bytes) :
  path req = `"/logs" ->
  int_of_header rt (header_get (headers req) `"Content-Length") = inr n ->
  taken rt n input = (inr b, rest) ->
  do_POST rt req (fresh input printed)
  = (returned rt (process_body rt b),
     answered rt rest (verdict rt (process_body rt b)) printed).
Proof.
  intros Hp Hn Ht. rewrite (do_POST_answered _ input printed Hp).
  unfold read_plan. now rewrite Hn, Ht.
Qed.

Lemma do_POST_elsewhere (req : request) (w : world) :
  path req <> `"/logs" ->
  do_POST rt req w
  = (inr tt,
     set_ended
       (add_header `"Date" (date_time_string rt)
          (add_header `"Server" (version_string rt) (set_status 404 w)))).
Proof.
  intros Hp. apply str_eqb_neq in Hp. unfold do_POST. now rewrite Hp.
Qed.

End ReadingFacts.

(* ================================================================== *)
(** ** Further properties of [do_POST] *)

Section PostProperties.

Variable rt : runtime.

(** X1: [do_POST] ends in one of two ways.  Either it returns with a
    complete answer: the headers are ended, the status is 404 exactly
    when the path is not [/logs] and 200 or 400 otherwise, and the body
    is [OK] under 200 and empty under 400 and 404.  Or it raises
    [UnicodeEncodeError] with nothing sent, read or printed, which
    happens on [/logs] only, for a [Content-Length] that [int] refuses
    with a message the console cannot show. *)
Theorem do_POST_answers_or_escapes (req : request) (input : bytes)
    (printed : list event) :
  let r := do_POST rt req (fresh input printed) in
  (fst r = inr tt
   /\ headers_ended (snd r) = true
   /\ (status (snd r) = Some 404 <-> path req <> `"/logs")
   /\ ((status (snd r) = Some 200 /\ wfile (snd r) = blit "OK")
       \/ (status (snd r) = Some 400 /\ wfile (snd r) = [])
       \/ (status (snd r) = Some 404 /\ wfile (snd r) = [])))
  \/ (fst r = inl UnicodeEncodeError
      /\ path req = `"/logs"
      /\ (exists v,
            header_get (headers req) `"Content-Length" = Some v
            /\ py_int rt v = None
            /\ forallb (encodable rt) (int_error rt v) = false)
      /\ no_response (snd r)
      /\ rfile (snd r) = input
      /\ console (snd r) = printed).
Proof.
  cbv zeta. destruct (str_eqb (path req) `"/logs") eqn:Hp.
  - apply str_eqb_eq in Hp. rewrite (do_POST_answered rt _ input printed Hp).
    cbn [fst snd answered status wfile headers_ended rfile console].
    destruct (verdict_cases rt (fst (read_plan rt req input)))
      as [[Hret [Hv | Hv]] | (Hret & Hv & e & He & Hn)].
    + left. rewrite Hret, Hv. split; [reflexivity|]. split; [reflexivity|].
      split; [split; [discriminate | congruence]|]. left. now split.
    + left. rewrite Hret, Hv. split; [reflexivity|]. split; [reflexivity|].
      split; [split; [discriminate | congruence]|]. right. left. now split.
    + right. rewrite Hret, Hv.
      destruct (read_plan_escape rt req input He Hn)
        as (v & Hh & Hint & -> & Hrest).
      split; [reflexivity|]. split; [exact Hp|]. split; [now exists v|].
      unfold no_response.
      cbn [fst snd answered status wfile headers_ended headers_out].
      rewrite app_nil_r. now repeat split.
  - apply str_eqb_neq in Hp. rewrite (do_POST_elsewhere rt _ _ Hp).
    left. cbn. repeat split; auto.
Qed.

(** X2: the routes are exact and per method.  [do_POST] answers 404 on
    every path but [/logs], the status path [/] and paths with a query
    string or a trailing slash included; [do_GET] answers 404 on every
    path but [/], [/logs] included.  Neither reads the request nor
    prints. *)
Theorem routes_are_exact (m : method) (req : request) (input : bytes)
    (printed : list event) :
  (m = POST /\ path req <> `"/logs") \/ (m = GET /\ path req <> `"/") ->
  let r := handle rt m req (fresh input printed) in
  fst r = inr tt /\ not_found rt input printed (snd r).
Proof.
  intros [[-> Hp] | [-> Hp]]; apply str_eqb_neq in Hp;
    unfold handle, do_POST, do_GET; rewrite Hp;
    cbv [bind ret Monad_M send_response end_headers fst snd not_found];
    repeat split; reflexivity.
Qed.

(** X3: with a [Content-Length] of [n >= 0] that [read] can serve,
    [do_POST] takes the first [n] bytes of the input, whatever they hold
    and whatever the answer, and leaves the rest unread; bytes after the
    first [n] have no effect on the result, the status, the console, the
    headers or the body of the answer.  An [n] above [sys.maxsize], or
    one for which no [bytes] object can be made, makes [read] raise
    [OverflowError] or [MemoryError]: the answer is 400 and nothing is
    read. *)
Theorem reads_content_length_bytes (req : request) (input : bytes)
    (printed : list event) (n : Z) :
  path req = `"/logs" ->
  int_of_header rt (header_get (headers req) `"Content-Length") = inr n ->
  (0 <= n)%Z ->
  let r := do_POST rt req (fresh input printed) in
  ((n <= Z.of_N (maxsize rt))%Z ->
   allocate rt n = None ->
   rfile (snd r) = skipn (Z.to_nat n) input
   /\ forall input',
        firstn (Z.to_nat n) input' = firstn (Z.to_nat n) input ->
        let r' := do_POST rt req (fresh input' printed) in
        fst r' = fst r
        /\ status (snd r') = status (snd r)
        /\ console (snd r') = console (snd r)
        /\ headers_out (snd r') = headers_out (snd r)
        /\ wfile (snd r') = wfile (snd r))
  /\ ((Z.of_N (maxsize rt) < n)%Z \/ allocate rt n <> None ->
      fst r = inr tt
      /\ status (snd r) = Some 400
      /\ wfile (snd r) = []
      /\ rfile (snd r) = input
      /\ (console (snd r) = printed ++ [Note OverflowError]
          \/ console (snd r) = printed ++ [Note MemoryError])).
Proof.
  intros Hp Hn Hpos. cbv zeta.
  assert (Hrange : (n <= Z.of_N (maxsize rt))%Z ->
                   ((n <? - Z.of_N (maxsize rt) - 1)
                    || (Z.of_N (maxsize rt) <? n))%Z = false).
  { intros Hmax. apply orb_false_iff. split; apply Z.ltb_ge; lia. }
  assert (Hlow : (n <? -1)%Z = false) by (apply Z.ltb_ge; lia).
  assert (Hone : (n =? -1)%Z = false) by (apply Z.eqb_neq; lia).
  split.
  - intros Hmax Halloc.
    assert (Hplan : forall i,
               taken rt n i
               = (inr (firstn (Z.to_nat n) i), skipn (Z.to_nat n) i)).
    { intros i. unfold taken. now rewrite (Hrange Hmax), Hlow, Hone, Halloc. }
    rewrite (do_POST_read_gives rt req input printed Hp Hn (Hplan input)).
    split; [reflexivity|]. intros input' Hsame.
    rewrite (do_POST_read_gives rt req input' printed Hp Hn (Hplan input')).
    rewrite Hsame. repeat split.
  - intros Hbig.
    assert (Hraise : fst (taken rt n input) = inl OverflowError
                     \/ fst (taken rt n input) = inl MemoryError).
    { unfold taken.
      destruct (Z.ltb_spec (Z.of_N (maxsize rt)) n) as [Hgt|Hle].
      - rewrite orb_true_r. now left.
      - rewrite (Hrange Hle), Hlow, Hone.
        destruct Hbig as [Hgt | Hno]; [lia|].
        destruct (allocate rt n) as [[]|]; [now right | now left |].
        now elim Hno. }
    destruct Hraise as [Ht | Ht];
      rewrite (do_POST_read_raises rt req input printed Hp Hn Ht);
      repeat split; auto.
Qed.

(** X4: a negative [Content-Length] is taken as it is.  With [-1] the
    handler reads the whole input as the body.  Any lower number is
    refused by [read] and answered 400 with nothing read: with
    [ValueError] down to [-sys.maxsize - 1], with [OverflowError]
    below. *)
Theorem negative_content_length (req : request) (input : bytes)
    (printed : list event) (n : Z) :
  path req = `"/logs" ->
  int_of_header rt (header_get (headers req) `"Content-Length") = inr n ->
  (n < 0)%Z ->
  let r := do_POST rt req (fresh input printed) in
  let refused (e : exn) :=
    fst r = inr tt
    /\ status (snd r) = Some 400
    /\ wfile (snd r) = []
    /\ rfile (snd r) = input
    /\ console (snd r) = printed ++ [Note e] in
  (n = (-1)%Z ->
   allocate rt (Z.of_nat (List.length input)) = None ->
   rfile (snd r) = [] /\ carries rt req (fresh input printed) input)
  /\ ((- Z.of_N (maxsize rt) - 1 <= n < -1)%Z ->
      refused (ValueError `"read length must be non-negative or -1"))
  /\ ((n < - Z.of_N (maxsize rt) - 1)%Z -> refused OverflowError).
Proof.
  intros Hp Hn Hneg. cbv zeta. split; [|split].
  - intros -> Halloc.
    assert (Ht : taken rt (-1) input = (inr input, [])).
    { unfold taken.
      replace ((-1 <? - Z.of_N (maxsize rt) - 1)
               || (Z.of_N (maxsize rt) <? -1))%Z with false
        by (symmetry; apply orb_false_iff; split; apply Z.ltb_ge; lia).
      change (-1 <? -1)%Z with false. change (-1 =? -1)%Z with true.
      cbv iota. now rewrite Halloc. }
    rewrite (do_POST_read_gives rt req input printed Hp Hn Ht).
    split; [reflexivity|].
    exists (-1)%Z. split; [exact Hn|].
    rewrite rfile_read_taken. cbn [rfile fresh]. now rewrite Ht.
  - intros [Hlo Hhi].
    assert (Ht : fst (taken rt n input)
                 = inl (ValueError `"read length must be non-negative or -1")).
    { unfold taken.
      replace ((n <? - Z.of_N (maxsize rt) - 1)
               || (Z.of_N (maxsize rt) <? n))%Z with false
        by (symmetry; apply orb_false_iff; split; apply Z.ltb_ge; lia).
      destruct (Z.ltb_spec n (-1)); [reflexivity | lia]. }
    rewrite (do_POST_read_raises rt req input printed Hp Hn Ht).
    repeat split.
  - intros Hlo.
    assert (Ht : fst (taken rt n input) = inl OverflowError).
    { unfold taken.
      destruct (Z.ltb_spec n (- Z.of_N (maxsize rt) - 1)); [reflexivity|lia]. }
    rewrite (do_POST_read_raises rt req input printed Hp Hn Ht).
    repeat split.
Qed.

(** X5: only the answer 200 carries a CORS header.  The answers 400 and
    404 of [do_POST] have no [Access-Control-Allow-Origin], so a page of
    another origin cannot read them. *)
Theorem only_success_has_cors (req : request) (input : bytes)
    (printed : list event) :
  let r := do_POST rt req (fresh input printed) in
  (status (snd r) = Some 200 ->
   cors_headers (headers_out (snd r))
   = [ (`"Access-Control-Allow-Origin", `"*") ])
  /\ (status (snd r) <> Some 200 ->
      cors_headers (headers_out (snd r)) = []).
Proof.
  cbv zeta. destruct (str_eqb (path req) `"/logs") eqn:Hp.
  - apply str_eqb_eq in Hp. rewrite (do_POST_answered rt _ input printed Hp).
    cbn [fst snd answered status headers_out].
    destruct (verdict_cases rt (fst (read_plan rt req input)))
      as [[_ [-> | ->]] | (_ & -> & _)];
      split; intros H; cbn [fst] in *; try congruence; reflexivity.
  - apply str_eqb_neq in Hp. rewrite (do_POST_elsewhere rt _ _ Hp).
    split; intros H; [discriminate | reflexivity].
Qed.

End PostProperties.

(* ================================================================== *)
(** ** Letter case, time strings *)

Lemma header_get_same (hs hs' : list (str * str)) (name : str) :
  same_headers hs hs' -> header_get hs name = header_get hs' name.
Proof.
  induction 1 as [|[k v] [k' v'] hs hs' [Hk Hv] _ IH]; [reflexivity|].
  cbn [fst snd] in Hk, Hv. subst v'.
  cbn [header_get]. now rewrite Hk, IH.
Qed.

Lemma upper_one_same (rt : runtime) (c c' : N) :
  ascii_lower c = ascii_lower c' ->
  (if is_ascii c then [ascii_upper c] else upper_nonascii rt c)
  = (if is_ascii c' then [ascii_upper c'] else upper_nonascii rt c').
Proof.
  unfold ascii_lower, ascii_upper, is_ascii. intros H.
  destruct (N.leb_spec 65 c); destruct (N.leb_spec c 90);
    destruct (N.leb_spec 65 c'); destruct (N.leb_spec c' 90);
    cbn [andb] in H;
    destruct (N.ltb_spec c 128); destruct (N.ltb_spec c' 128);
    try lia;
    try (assert (c = c') by lia; subst c'; reflexivity);
    destruct (N.leb_spec 97 c); destruct (N.leb_spec c 122);
    destruct (N.leb_spec 97 c'); destruct (N.leb_spec c' 122);
    cbn [andb]; try lia; f_equal; f_equal; lia.
Qed.

Lemma upper_same (rt : runtime) (s s' : str) :
  lower_ascii s = lower_ascii s' -> upper rt s = upper rt s'.
Proof.
  revert s'. induction s as [|c s IH]; intros [|c' s'] H;
    try discriminate; [reflexivity|].
  unfold lower_ascii in H. cbn [map] in H.
  assert (Hc : ascii_lower c = ascii_lower c') by congruence.
  assert (Hs : lower_ascii s = lower_ascii s')
    by (unfold lower_ascii; congruence).
  unfold upper. cbn [flat_map].
  rewrite (upper_one_same rt _ _ Hc). f_equal. apply (IH _ Hs).
Qed.

Lemma slice_length {A} (lo hi : nat) (s : list A) :
  List.length (slice lo hi s) = Nat.min (hi - lo) (List.length s - lo).
Proof. unfold slice. now rewrite length_firstn, length_skipn. Qed.

Lemma slice_middle {A} (date time rest : list A) :
  List.length date = 11 -> List.length time = 8 ->
  slice 11 19 (date ++ time ++ rest) = time.
Proof.
  intros Hd Ht. unfold slice.
  rewrite skipn_app, Hd, Nat.sub_diag, skipn_all2 by lia.
  cbn [skipn app].
  change (19 - 11) with 8. rewrite <- Ht.
  rewrite firstn_app, Nat.sub_diag, firstn_all. cbn [firstn].
  now rewrite app_nil_r.
Qed.

Section CaseProperties.

Variable rt : runtime.

(** X7: the names of the request headers are compared without regard to
    letter case: two requests whose headers differ only in the case of
    their names are handled alike. *)
Theorem header_names_ignore_case (p : str) (hs hs' : list (str * str))
    (w : world) :
  same_headers hs hs' ->
  do_POST rt {| path := p; headers := hs |} w
  = do_POST rt {| path := p; headers := hs' |} w.
Proof.
  intros H. unfold do_POST, try_except, post_logs. cbn [path headers].
  now rewrite (header_get_same `"Content-Length" H).
Qed.

(** X8: the level is read without regard to ASCII letter case: two
    objects that agree on every other key and whose levels are strings
    that differ in case only give the same record, hence the same color
    and the same lines. *)
Theorem level_ignores_case (items items' : list (str * value))
    (s s' : str) :
  (forall k, k <> `"level" -> dict_get items k = dict_get items' k) ->
  dict_get items `"level" = Some (VStr s) ->
  dict_get items' `"level" = Some (VStr s') ->
  lower_ascii s = lower_ascii s' ->
  get_fields rt (VDict items) = get_fields rt (VDict items')
  /\ exists f, get_fields rt (VDict items) = inr f /\ level f = upper rt s'.
Proof.
  intros Hrest Hs Hs' Hcase.
  rewrite !get_fields_dict, Hs, Hs'. cbn [or_default].
  unfold fields_of.
  rewrite <- !Hrest by (intros E; vm_compute in E; discriminate).
  rewrite (upper_same rt _ _ Hcase).
  split; [reflexivity|]. eexists. split; reflexivity.
Qed.

(** X9: the time shown is cut out of the timestamp by position, never
    parsed.  For a timestamp string it is the characters 11 to 18: at most
    8 of them, none when the string has 11 characters or fewer, and the
    time of day when the string is a date of 11 characters (with its
    separator), a time of 8 and whatever follows.  The line starts with
    it, and a timestamp string of any length is formatted. *)
Theorem time_is_cut_by_position (f : fields) (s : str) :
  timestamp f = VStr s ->
  exists tail,
    log_line rt f = inr (slice 11 19 s ++ `" " ++ tail)
    /\ List.length (slice 11 19 s) = Nat.min 8 (List.length s - 11)
    /\ (List.length s <= 11 -> slice 11 19 s = [])
    /\ (forall date time rest,
          s = date ++ time ++ rest ->
          List.length date = 11 -> List.length time = 8 ->
          slice 11 19 s = time).
Proof.
  intros Hts. rewrite log_line_eq, Hts. cbn [value_slice].
  eexists. split; [unfold line_of; cbn [fmt]; reflexivity|].
  split; [apply slice_length|]. split.
  - intros Hshort. apply length_zero_iff_nil. rewrite slice_length. lia.
  - intros date time rest -> Hd Ht. now apply slice_middle.
Qed.

(** X10: a timestamp made by [isoformat], with or without microseconds,
    is shown as its [HH:MM:SS]: eight ASCII characters. *)
Theorem isoformat_shows_clock (f : fields) (d : datetime) :
  timestamp f = VStr (isoformat d) ->
  exists tail,
    log_line rt f = inr (clock d ++ `" " ++ tail)
    /\ List.length (clock d) = 8
    /\ forallb is_ascii (clock d) = true.
Proof.
  intros Hts. rewrite log_line_eq, Hts. cbn [value_slice].
  rewrite isoformat_time.
  eexists. split; [unfold line_of; cbn [fmt]; reflexivity|].
  split; [|apply clock_ascii].
  unfold clock. cbn [zfill app lit List.length]. reflexivity.
Qed.

End CaseProperties.

(* ================================================================== *)
(** ** The UTF-8 codec *)

Lemma split64 (c : N) :
  exists q m, (c = 64 * q + m /\ m < 64 /\ c / 64 = q /\ c mod 64 = m)%N.
Proof.
  exists (c / 64)%N, (c mod 64)%N. repeat split.
  - apply N.div_mod. discriminate.
  - apply N.mod_lt. discriminate.
Qed.

Ltac split_test :=
  match goal with
  | |- context [(?a =? ?b)%N] =>
    destruct (N.eqb_spec a b); try (exfalso; lia)
  | |- context [(?a <? ?b)%N] =>
    destruct (N.ltb_spec a b); try (exfalso; lia)
  | |- context [(?a <=? ?b)%N] =>
    destruct (N.leb_spec a b); try (exfalso; lia)
  end; cbn [andb orb negb].

Lemma decode_1 (b0 : N) (r : list N) :
  (b0 < 128)%N ->
  utf8_decode_N ([b0] ++ r) = option_map (cons b0) (utf8_decode_N r).
Proof.
  intros H. cbn [app utf8_decode_N].
  destruct (N.ltb_spec b0 128); [reflexivity | lia].
Qed.

Lemma decode_2 (b0 b1 : N) (r : list N) :
  (194 <= b0 <= 223)%N -> (128 <= b1 <= 191)%N ->
  utf8_decode_N ([b0; b1] ++ r)
  = option_map (cons ((b0 - 192) * 64 + (b1 - 128))%N) (utf8_decode_N r).
Proof.
  intros H0 H1. cbn [app utf8_decode_N]. unfold in_range, is_cont.
  repeat split_test. reflexivity.
Qed.

Lemma decode_3 (b0 b1 b2 : N) (r : list N) :
  (224 <= b0 <= 239)%N -> (128 <= b1 <= 191)%N -> (128 <= b2 <= 191)%N ->
  (b0 = 224 -> 160 <= b1)%N -> (b0 = 237 -> b1 <= 159)%N ->
  utf8_decode_N ([b0; b1; b2] ++ r)
  = option_map
      (cons ((b0 - 224) * 4096 + (b1 - 128) * 64 + (b2 - 128))%N)
      (utf8_decode_N r).
Proof.
  intros H0 H1 H2 Hlo Hhi. cbn [app utf8_decode_N]. unfold in_range, is_cont.
  repeat split_test; reflexivity.
Qed.

Lemma decode_4 (b0 b1 b2 b3 : N) (r : list N) :
  (240 <= b0 <= 244)%N -> (128 <= b1 <= 191)%N -> (128 <= b2 <= 191)%N ->
  (128 <= b3 <= 191)%N ->
  (b0 = 240 -> 144 <= b1)%N -> (b0 = 244 -> b1 <= 143)%N ->
  utf8_decode_N ([b0; b1; b2; b3] ++ r)
  = option_map
      (cons ((b0 - 240) * 262144 + (b1 - 128) * 4096
             + (b2 - 128) * 64 + (b3 - 128))%N)
      (utf8_decode_N r).
Proof.
  intros H0 H1 H2 H3 Hlo Hhi. cbn [app utf8_decode_N]. unfold in_range, is_cont.
  repeat split_test; reflexivity.
Qed.

Lemma Some_eq {A} (x y : A) : Some x = Some y -> x = y.
Proof. congruence. Qed.

Lemma utf8_encode_cp_decode (c : N) (bs r : list N) :
  utf8_encode_cp c = Some bs ->
  utf8_decode_N (bs ++ r) = option_map (cons c) (utf8_decode_N r).
Proof.
  unfold utf8_encode_cp, is_surrogate, in_range.
  replace (c / 4096)%N with (c / 64 / 64)%N
    by (now rewrite N.Div0.div_div).
  replace (c / 262144)%N with (c / 64 / 64 / 64)%N
    by (now rewrite !N.Div0.div_div).
  destruct (split64 c) as (q & m & Hc & Hm & -> & ->).
  destruct (split64 q) as (q1 & m1 & Hq & Hm1 & -> & ->).
  destruct (split64 q1) as (q2 & m2 & Hq1 & Hm2 & -> & ->).
  destruct (N.ltb_spec c 128).
  { intros E. apply Some_eq in E. subst bs. now apply decode_1. }
  destruct (N.ltb_spec c 2048).
  { intros E. apply Some_eq in E. subst bs. rewrite decode_2 by lia.
    f_equal. f_equal. lia. }
  destruct (N.leb_spec 55296 c); destruct (N.leb_spec c 57343);
    cbn [andb]; try discriminate;
    (destruct (N.ltb_spec c 65536);
     [ intros E; apply Some_eq in E; subst bs; rewrite decode_3 by lia;
       f_equal; f_equal; lia
     | destruct (N.ltb_spec c 1114112); [|discriminate];
       intros E; apply Some_eq in E; subst bs; rewrite decode_4 by lia;
       f_equal; f_equal; lia ]).
Qed.

Lemma utf8_encode_decode_N (s : str) (l : list N) :
  utf8_encode_N s = Some l -> utf8_decode_N l = Some s.
Proof.
  revert l. induction s as [|c s IH]; intros l; cbn [utf8_encode_N].
  - now intros [= <-].
  - destruct (utf8_encode_cp c) as [bs|] eqn:Hc; [|discriminate].
    destruct (utf8_encode_N s) as [r|]; [|discriminate].
    intros [= <-]. rewrite (@utf8_encode_cp_decode c bs r Hc), (IH r eq_refl).
    reflexivity.
Qed.

Lemma bytes_of_N_to_N (l : list N) (b : bytes) :
  bytes_of_N l = Some b -> map Byte.to_N b = l.
Proof.
  revert b. induction l as [|n l IH]; intros b; cbn [bytes_of_N].
  - now intros [= <-].
  - destruct (Byte.of_N n) as [x|] eqn:Hx; [|discriminate].
    destruct (bytes_of_N l) as [r|]; [|discriminate].
    intros [= <-]. cbn [map]. now rewrite (@Byte.to_of_N n x Hx), (IH r eq_refl).
Qed.

(** X11: the two directions of the UTF-8 codec that the handlers use
    agree: the bytes [str.encode()] gives for a text decode back to that
    text. *)
Theorem utf8_decode_encode (s : str) (b : bytes) :
  utf8_encode s = Some b -> utf8_decode b = Some s.
Proof.
  unfold utf8_encode, utf8_decode.
  destruct (utf8_encode_N s) as [l|] eqn:Hl; [|discriminate].
  intros Hb. rewrite (@bytes_of_N_to_N l b Hb). now apply utf8_encode_decode_N.
Qed.

Lemma of_N_small (c : N) : (c < 256)%N -> exists x, Byte.of_N c = Some x.
Proof.
  intros H. pose proof (Byte.to_of_N_option_map c) as E.
  destruct (Byte.of_N c) as [x|]; [now exists x|].
  destruct (N.leb_spec c 255); [discriminate | lia].
Qed.

Lemma ascii_encodes (s : str) :
  forallb is_ascii s = true -> exists b, utf8_encode s = Some b.
Proof.
  intros H. unfold utf8_encode.
  assert (He : utf8_encode_N s = Some s).
  { induction s as [|c s IH]; [reflexivity|].
    cbn [forallb] in H. apply andb_true_iff in H. destruct H as [Hc Hs].
    cbn [utf8_encode_N]. unfold utf8_encode_cp.
    unfold is_ascii in Hc. rewrite Hc, (IH Hs). reflexivity. }
  rewrite He. clear He.
  induction s as [|c s IH]; [now exists []|].
  cbn [forallb] in H. apply andb_true_iff in H. destruct H as [Hc Hs].
  destruct (IH Hs) as (b & Hb).
  unfold is_ascii in Hc. apply N.ltb_lt in Hc.
  destruct (@of_N_small c) as (x & Hx); [lia|].
  exists (x :: b). cbn [bytes_of_N]. now rewrite Hx, Hb.
Qed.

Lemma digits_fuel_ascii (fuel : nat) (n : N) (acc : str) :
  forallb is_ascii acc = true ->
  forallb is_ascii (digits_fuel fuel n acc) = true.
Proof.
  revert n acc. induction fuel as [|fuel IH]; intros n acc H; [exact H|].
  cbn [digits_fuel]. destruct (n <? 10)%N.
  - cbn [forallb]. now rewrite digit_ascii.
  - apply IH. cbn [forallb]. now rewrite digit_ascii.
Qed.

Lemma str_of_N_ascii (n : N) : forallb is_ascii (str_of_N n) = true.
Proof. now apply digits_fuel_ascii. Qed.

(* ================================================================== *)
(** ** [do_GET], [get_local_ip] and the banner *)

Section GetProperties.

Variable rt : runtime.

Lemma status_page_ascii :
  forallb is_ascii (local_ip rt) = true ->
  forallb is_ascii (status_page rt) = true.
Proof.
  intros H. unfold status_page.
  repeat (rewrite forallb_app; apply andb_true_intro; split);
    try exact H; try apply str_of_N_ascii; vm_compute; reflexivity.
Qed.

Lemma status_page_url :
  contains (logs_url (local_ip rt) (server_port rt)) (status_page rt).
Proof.
  unfold contains, logs_url, status_page.
  match goal with
  | |- exists before after, ?A ++ _ ++ _ ++ _ ++ ?C = _ =>
    exists (firstn (List.length A - 7) A), (skipn 5 C);
    replace A with (firstn (List.length A - 7) A ++ `"http://") at 1
      by (vm_compute; reflexivity);
    replace C with (`"/logs" ++ skipn 5 C) at 1
      by (vm_compute; reflexivity)
  end.
  now rewrite <- !app_assoc.
Qed.

Lemma do_GET_root_eq (req : request) (w : world) :
  path req = `"/" ->
  do_GET rt req w =
  let w1 :=
    set_ended
      (add_header `"Content-type" `"text/html"
         (add_header `"Date" (date_time_string rt)
            (add_header `"Server" (version_string rt) (set_status 200 w)))) in
  match utf8_encode (status_page rt) with
  | Some b => (inr tt, add_wfile b w1)
  | None => (inl UnicodeEncodeError, w1)
  end.
Proof.
  intros Hp. unfold do_GET. rewrite Hp, str_eqb_refl.
  cbv [bind ret Monad_M send_response send_header end_headers lift
       wfile_write encode].
  destruct (utf8_encode (status_page rt)); reflexivity.
Qed.

(** X12: [GET /] sends status 200 and [Content-type: text/html] before
    it encodes the page.  When the page encodes, the body is its UTF-8
    bytes, which decode back to the page; when it does not, [do_GET]
    raises [UnicodeEncodeError] with the headers sent and no body.
    In both cases nothing is read and nothing is printed. *)
Theorem do_GET_root (req : request) (input : bytes)
    (printed : list event) :
  path req = `"/" ->
  let r := do_GET rt req (fresh input printed) in
  status (snd r) = Some 200
  /\ headers_out (snd r)
     = library_headers rt ++ [ (`"Content-type", `"text/html") ]
  /\ headers_ended (snd r) = true
  /\ rfile (snd r) = input
  /\ console (snd r) = printed
  /\ ((fst r = inr tt
       /\ utf8_encode (status_page rt) = Some (wfile (snd r))
       /\ utf8_decode (wfile (snd r)) = Some (status_page rt))
      \/ (fst r = inl UnicodeEncodeError
          /\ utf8_encode (status_page rt) = None
          /\ wfile (snd r) = [])).
Proof.
  intros Hp. cbv zeta. rewrite (do_GET_root_eq _ _ Hp). cbv zeta.
  destruct (utf8_encode (status_page rt)) as [b|] eqn:Hb;
    cbn [fst snd fresh set_status add_header set_ended add_wfile status
         headers_out headers_ended rfile console wfile app];
    repeat split; [left | right]; repeat split.
  now apply utf8_decode_encode.
Qed.

End GetProperties.

Section StartupProperties.

Variable os : sockets.

Lemma dotted_ascii (a : byte * byte * byte * byte) :
  forallb is_ascii (dotted a) = true.
Proof.
  destruct a as [[[a1 a2] a3] a4]. unfold dotted.
  rewrite !forallb_app, !str_of_N_ascii. reflexivity.
Qed.

(** X13: [get_local_ip] never raises and never leaves its socket open.
    When a socket is made, connected and named, the result is the dotted
    text of its address; when any of the three calls fails it is
    [127.0.0.1].  The result is ASCII text in every case. *)
Theorem get_local_ip_falls_back (n : nat) :
  snd (get_local_ip os n) = n
  /\ forallb is_ascii (fst (get_local_ip os n)) = true
  /\ (forall a port,
        socket_ok os = true -> connect_ok os = true ->
        sockname os = Some (a, port) ->
        fst (get_local_ip os n) = dotted a)
  /\ (socket_ok os = false \/ connect_ok os = false \/ sockname os = None ->
      fst (get_local_ip os n) = `"127.0.0.1").
Proof.
  unfold get_local_ip, with_socket, socket_socket, connect, getsockname,
    close.
  cbv [bind ret Monad_Net].
  destruct (socket_ok os), (connect_ok os), (sockname os) as [[a port]|];
    cbn [fst snd Nat.pred]; repeat split;
    try reflexivity; try apply dotted_ascii; try discriminate;
    try (intros a0 port0 _ _ E; congruence);
    try (intros [H | [H | H]]; discriminate).
Qed.

End StartupProperties.

Section ServedProperties.

Variable rt : runtime.
Variable os : sockets.

(** X14: with the address that [get_local_ip] returns, [GET /] always
    succeeds: the answer is 200, the body decodes to the status page, and
    the page holds the address to post to,
    [http://<address>:<port>/logs]. *)
Theorem root_page_is_served (n : nat) (req : request) (input : bytes)
    (printed : list event) :
  local_ip rt = fst (get_local_ip os n) ->
  path req = `"/" ->
  let r := do_GET rt req (fresh input printed) in
  fst r = inr tt
  /\ status (snd r) = Some 200
  /\ utf8_decode (wfile (snd r)) = Some (status_page rt)
  /\ contains (logs_url (local_ip rt) (server_port rt)) (status_page rt).
Proof.
  intros Hip Hp. cbv zeta.
  assert (Hascii : forallb is_ascii (local_ip rt) = true).
  { rewrite Hip. apply (get_local_ip_falls_back os n). }
  destruct (ascii_encodes _ (status_page_ascii rt Hascii)) as (b & Hb).
  destruct (do_GET_root rt req input printed Hp)
    as (Hs & _ & _ & _ & _ & [(Hr & _ & Hd) | (_ & Hnone & _)]).
  - repeat split; auto. apply status_page_url.
  - congruence.
Qed.

End ServedProperties.

Section BannerProperties.

Variable rt : runtime.








End BannerProperties.

(* ================================================================== *)
(** ** The handler on concrete requests *)

Module Run.

Import Sample.

Ltac carries_by_computation :=
  eexists; split; [vm_compute; reflexivity | vm_compute; reflexivity].

(** Scenario 1 of the specification. *)
Example disk_full :
  let b := body
    "{'level':'error','message':'disk full','tag':'io','error':'ENOSPC'}" in
  let w := snd (do_POST rt (post b) (fresh b [])) in
  status w = Some 200
  /\ wfile w = blit "OK"
  /\ console w =
       [ Line (`"09:30:45 " ++ (ESC :: `"[31m") ++ `"ERROR  "
               ++ (ESC :: `"[0m") ++ `" [io] disk full");
         Line (`"         " ++ (ESC :: `"[31m") ++ `"ERROR:"
               ++ (ESC :: `"[0m") ++ `" ENOSPC") ].
Proof. vm_compute. repeat split. Qed.

(** Scenario 4: the status page. *)
Example status_page_served :
  let w := snd (do_GET rt {| path := `"/"; headers := [] |} (fresh [] [])) in
  status w = Some 200
  /\ headers_out w = library_headers rt ++ [ (`"Content-type", `"text/html") ]
  /\ utf8_decode (wfile w) = Some (status_page rt).
Proof. vm_compute. repeat split. Qed.

(** The codec on a two-, a three- and a four-byte character. *)
Example utf8_round_trip :
  option_map (map Byte.to_N) (utf8_encode [233; 8364; 128640]%N)
  = Some [195; 169; 226; 130; 172; 240; 159; 154; 128]%N
  /\ utf8_decode_N [195; 169; 226; 130; 172; 240; 159; 154; 128]%N
     = Some [233; 8364; 128640]%N
  /\ utf8_decode_N [237; 160; 128]%N = None
  /\ utf8_decode_N [192; 128]%N = None
  /\ utf8_decode_N [255]%N = None.
Proof. vm_compute. repeat split. Qed.

Example int_examples :
  int `" 42 " = Some 42%Z /\ int `"-1_000" = Some (-1000)%Z
  /\ int `"+7" = Some 7%Z /\ int `"" = None /\ int `"12a" = None
  /\ int `"1__0" = None /\ int `"_7" = None /\ int `"4.5" = None.
Proof. vm_compute. repeat split. Qed.

(** *** [{"level": 5}]: an object that is refused *)

Lemma level_5_carried : carries rt (post level_5) (fresh level_5 []) level_5.
Proof. carries_by_computation. Defined.

(** C1, counterexample: the body [{"level": 5}] decodes as a JSON object
    and is answered 400, since [5] has no method [upper]. *)
Lemma level_number_refused :
  ~ Stated.lenient_decode rt (post level_5) level_5 [].
Proof.
  intros H.
  specialize (H level_5 (json_text "{'level': 5}") [(`"level", VInt 5)]
                eq_refl level_5_carried eq_refl eq_refl).
  vm_compute in H. discriminate.
Qed.

Lemma object_fields_policy_witness :
  path (post level_5) = `"/logs"
  /\ carries rt (post level_5) (fresh level_5 []) level_5
  /\ utf8_decode level_5 = Some (json_text "{'level': 5}")
  /\ json_loads rt (json_text "{'level': 5}")
     = Some (VDict [(`"level", VInt 5)])
  /\ status (snd (do_POST rt (post level_5) (fresh level_5 []))) = Some 400.
Proof.
  split; [reflexivity|]. split; [exact level_5_carried|].
  split; [reflexivity|]. split; [reflexivity|].
  exact (proj1 (proj1 (@object_fields_policy rt (post level_5) level_5 []
                         level_5 (json_text "{'level': 5}")
                         [(`"level", VInt 5)] eq_refl level_5_carried
                         eq_refl eq_refl) eq_refl)).
Defined.

(** *** [OPTIONS /unknown] and [GET /unknown] *)

Lemma unknown_not_logs : path unknown <> `"/logs".
Proof. apply str_eqb_neq. reflexivity. Defined.

Lemma unknown_not_root : path unknown <> `"/".
Proof. apply str_eqb_neq. reflexivity. Defined.

(** C2, counterexample: [OPTIONS /unknown] is answered 200, not 404. *)
Lemma options_unknown_path_200 :
  ~ Stated.unknown_route_404 rt OPTIONS unknown [] [].
Proof.
  intros H. specialize (H unknown_not_logs unknown_not_root).
  vm_compute in H. discriminate.
Qed.

Lemma unknown_path_404_witness :
  path unknown <> `"/logs"
  /\ path unknown <> `"/"
  /\ status (snd (handle rt GET unknown (fresh [] []))) = Some 404
  /\ wfile (snd (handle rt GET unknown (fresh [] []))) = [].
Proof.
  split; [exact unknown_not_logs|]. split; [exact unknown_not_root|].
  pose proof (@unknown_path_404 rt GET unknown [] []
                (or_intror eq_refl) unknown_not_logs unknown_not_root) as H.
  destruct H as (_ & Hs & _ & _ & Hw & _). exact (conj Hs Hw).
Defined.

(** *** A timestamp that is not ISO-8601 *)

(** C3, counterexample: the timestamp [yesterday around noon] is not
    ISO-8601 and stays the record's timestamp; the current time does not
    replace it. *)
Lemma unparseable_timestamp_kept : ~ Stated.timestamp_defaulted rt noon.
Proof.
  intros H. specialize (H (fields_of rt noon `"INFO") eq_refl eq_refl).
  vm_compute in H. discriminate.
Qed.

Lemma timestamp_used_as_given_witness :
  get_fields rt (VDict noon) = inr (fields_of rt noon `"INFO")
  /\ timestamp (fields_of rt noon `"INFO") = VStr `"yesterday around noon"
  /\ log_line rt (fields_of rt noon `"INFO")
     = inr (`"round no " ++ (ESC :: `"[36m") ++ `"INFO   "
            ++ (ESC :: `"[0m") ++ `" ").
Proof.
  split; [reflexivity|].
  pose proof (@timestamp_used_as_given rt noon (fields_of rt noon `"INFO")
                eq_refl) as (_ & Hv & Hs).
  split; [exact (Hv _ eq_refl) | exact (Hs _ eq_refl)].
Defined.

(** *** [{"level": "info"}] *)

(** C4, counterexample: the line printed for the level [info] has
    [INFO] followed by three spaces, not preceded by them. *)
Lemma level_padding_follows :
  ~ Stated.level_left_padded rt
      (fields_of rt [(`"level", VStr `"info")] `"info").
Proof.
  intros H. destruct (H _ eq_refl) as (time_str & Ht & Hline).
  vm_compute in Ht. injection Ht as <-.
  vm_compute in Hline. discriminate.
Qed.

Lemma info_carried : carries rt (post info) (fresh info []) info.
Proof. carries_by_computation. Defined.

Lemma level_padded_on_the_right_witness :
  path (post info) = `"/logs"
  /\ carries rt (post info) (fresh info []) info
  /\ utf8_decode info = Some (json_text "{'level': 'info'}")
  /\ json_loads rt (json_text "{'level': 'info'}")
     = Some (VDict [(`"level", VStr `"info")])
  /\ status (snd (do_POST rt (post info) (fresh info []))) = Some 200
  /\ exists s time_str,
       or_default (dict_get [(`"level", VStr `"info")] `"level")
                  (VStr `"INFO") = VStr s
       /\ value_slice 11 19
            (or_default (dict_get [(`"level", VStr `"info")] `"timestamp")
                        (VStr (isoformat (now rt)))) = inr time_str
       /\ let f := fields_of rt [(`"level", VStr `"info")] s in
          console (snd (do_POST rt (post info) (fresh info []))) =
            [] ++ Line (fmt rt time_str ++ `" "
                        ++ colors_get colors (upper rt s) []
                        ++ (upper rt s
                            ++ repeat 32%N (7 - List.length (upper rt s)))
                        ++ reset_color ++ `" " ++ tag_str rt f
                        ++ fmt rt (message f))
                  :: (if truthy (error f) then [Line (error_line rt f)]
                      else [])
       /\ List.length (upper rt s
                       ++ repeat 32%N (7 - List.length (upper rt s)))
          = Nat.max 7 (List.length (upper rt s)).
Proof.
  split; [reflexivity|]. split; [exact info_carried|].
  split; [reflexivity|]. split; [reflexivity|]. split; [reflexivity|].
  exact (@level_padded_on_the_right rt (post info) info [] info
           (json_text "{'level': 'info'}") [(`"level", VStr `"info")]
           eq_refl info_carried eq_refl eq_refl eq_refl).
Defined.

(** The line of [{"level": "info"}] as the console shows it. *)
Example info_line :
  console (snd (do_POST rt (post info) (fresh info [])))
  = [ Line (`"09:30:45 " ++ (ESC :: `"[36m") ++ `"INFO   "
            ++ (ESC :: `"[0m") ++ `" ") ].
Proof. vm_compute. reflexivity. Qed.

(** *** [{}] *)




(** *** [not json] and [{"message": NaN}] *)

Lemma not_json_carried :
  carries rt (post not_json) (fresh not_json []) not_json.
Proof. carries_by_computation. Defined.

Lemma not_json_malformed : malformed rt not_json.
Proof. right. left. exists `"not json". split; reflexivity. Defined.

Lemma nan_message_carried :
  carries rt (post nan_message) (fresh nan_message []) nan_message.
Proof. carries_by_computation. Defined.

(** The recognizer on JSON text and on text that is not JSON. *)
Example rfc8259_examples :
  Stated.rfc8259 (json_text "{}") = true
  /\ Stated.rfc8259
       (json_text
          "{'level':'error','message':'disk full','tag':'io','error':'ENOSPC'}")
     = true
  /\ Stated.rfc8259 (json_text " [1, -2.5e+3, true, null, {'a': ['b\\n']}] ")
     = true
  /\ Stated.rfc8259 (json_text "{'message': 0}") = true
  /\ Stated.rfc8259 (json_text "{'message': NaN}") = false
  /\ Stated.rfc8259 (json_text "not json") = false
  /\ Stated.rfc8259 (json_text "[1, 2") = false
  /\ Stated.rfc8259 (json_text "{'a': 01}") = false
  /\ Stated.rfc8259 (json_text "{} {}") = false.
Proof. vm_compute. repeat split. Qed.

(** C6, counterexample: the body [{"message": NaN}] is not JSON, which
    has no [NaN]; [json.loads] accepts it, and the answer is 200 with
    the line of the record printed. *)
Lemma nan_accepted :
  ~ Stated.invalid_json_400 rt (post nan_message) nan_message [].
Proof.
  intros H.
  assert (Hno : Stated.not_an_object rt nan_message).
  { right. left. exists (json_text "{'message': NaN}").
    split; vm_compute; reflexivity. }
  destruct (H nan_message eq_refl nan_message_carried Hno) as [Hs _].
  vm_compute in Hs. discriminate.
Qed.

(** What [do_POST] does with [{"message": NaN}]. *)
Example nan_printed :
  let w := snd (do_POST rt (post nan_message) (fresh nan_message [])) in
  status w = Some 200
  /\ wfile w = blit "OK"
  /\ console w = [ Line (`"09:30:45 " ++ (ESC :: `"[36m") ++ `"INFO   "
                         ++ (ESC :: `"[0m") ++ `" nan") ].
Proof. vm_compute. repeat split. Qed.

Lemma malformed_body_400_witness :
  path (post not_json) = `"/logs"
  /\ carries rt (post not_json) (fresh not_json []) not_json
  /\ malformed rt not_json
  /\ status (snd (do_POST rt (post not_json) (fresh not_json []))) = Some 400
  /\ wfile (snd (do_POST rt (post not_json) (fresh not_json []))) = [].
Proof.
  split; [reflexivity|]. split; [exact not_json_carried|].
  split; [exact not_json_malformed|].
  pose proof (@malformed_body_400 rt (post not_json) not_json [] not_json
                eq_refl not_json_carried not_json_malformed)
    as (_ & Hs & Hw & _).
  exact (conj Hs Hw).
Defined.

(** *** Records that are decoded *)

Lemma number_timestamp_carried :
  carries rt (post number_timestamp) (fresh number_timestamp [])
    number_timestamp.
Proof. carries_by_computation. Defined.

(** C7, counterexample: the body [{"timestamp": 5}] is decoded, with the
    five fields extracted, and is answered 400: the number [5] cannot be
    sliced. *)
Lemma number_timestamp_refused :
  ~ Stated.decoded_is_accepted rt (post number_timestamp) number_timestamp [].
Proof.
  intros H.
  destruct (H number_timestamp (json_text "{'timestamp': 5}")
              (VDict [(`"timestamp", VInt 5)])
              (fields_of rt [(`"timestamp", VInt 5)] `"INFO")
              eq_refl number_timestamp_carried eq_refl eq_refl eq_refl)
    as [Hs _].
  vm_compute in Hs. discriminate.
Qed.

Lemma disk_full_carried :
  carries rt (post disk_full_body) (fresh disk_full_body []) disk_full_body.
Proof. carries_by_computation. Defined.

Lemma disk_full_shown :
  exists line,
    log_line rt (fields_of rt disk_full_items `"error") = inr line
    /\ forallb (encodable rt) line = true
    /\ (truthy (error (fields_of rt disk_full_items `"error")) = true ->
        forallb (encodable rt)
                (error_line rt (fields_of rt disk_full_items `"error"))
        = true).
Proof.
  eexists. split; [vm_compute; reflexivity|].
  split; [vm_compute; reflexivity|]. intros _. vm_compute. reflexivity.
Defined.

Lemma accepted_response_witness :
  path (post disk_full_body) = `"/logs"
  /\ carries rt (post disk_full_body) (fresh disk_full_body [])
       disk_full_body
  /\ utf8_decode disk_full_body
     = Some (json_text
          "{'level':'error','message':'disk full','tag':'io','error':'ENOSPC'}")
  /\ json_loads rt
       (json_text
          "{'level':'error','message':'disk full','tag':'io','error':'ENOSPC'}")
     = Some (VDict disk_full_items)
  /\ get_fields rt (VDict disk_full_items)
     = inr (fields_of rt disk_full_items `"error")
  /\ fst (do_POST rt (post disk_full_body) (fresh disk_full_body []))
     = inr tt
  /\ status (snd (do_POST rt (post disk_full_body) (fresh disk_full_body [])))
     = Some 200
  /\ wfile (snd (do_POST rt (post disk_full_body) (fresh disk_full_body [])))
     = blit "OK".
Proof.
  split; [reflexivity|]. split; [exact disk_full_carried|].
  split; [reflexivity|]. split; [reflexivity|]. split; [reflexivity|].
  pose proof (@accepted_response rt (post disk_full_body) disk_full_body []
                disk_full_body _ (VDict disk_full_items)
                (fields_of rt disk_full_items `"error")
                eq_refl disk_full_carried eq_refl eq_refl eq_refl)
    as (Hr & Hiff & Hok & _).
  pose proof (proj2 Hiff disk_full_shown) as Hs.
  destruct (Hok Hs) as (_ & _ & _ & Hw).
  exact (conj Hr (conj Hs Hw)).
Defined.

(** *** An error text the console cannot encode *)

(** C9, counterexample: for the body [{"error": "\ud800"}] the primary
    line is printed, printing the error line raises
    [UnicodeEncodeError] on a UTF-8 console, and the answer is 400. *)
Lemma primary_line_before_400 :
  ~ Stated.failure_leaves_no_line rt (post lone_surrogate) lone_surrogate [].
Proof.
  intros H. specialize (H eq_refl eq_refl). vm_compute in H. discriminate.
Qed.

Lemma failure_console_witness :
  path (post lone_surrogate) = `"/logs"
  /\ status (snd (do_POST rt (post lone_surrogate) (fresh lone_surrogate [])))
     = Some 400
  /\ ((exists e,
         console (snd (do_POST rt (post lone_surrogate)
                         (fresh lone_surrogate []))) = [] ++ [Note e])
      \/ (exists f line,
            fst (receive rt (post lone_surrogate) (fresh lone_surrogate []))
            = inr (f, line)
            /\ truthy (error f) = true
            /\ forallb (encodable rt) (error_line rt f) = false
            /\ console (snd (do_POST rt (post lone_surrogate)
                               (fresh lone_surrogate [])))
               = [] ++ [Line line; Note UnicodeEncodeError])).
Proof.
  split; [reflexivity|]. split; [reflexivity|].
  exact (proj1 (@failure_console rt (post lone_surrogate) lone_surrogate []
                  eq_refl) eq_refl).
Defined.

(** *** No [Content-Length], or one that is not a number *)


(** What [do_POST] leaves in the two cases. *)
Example unprintable_length_run :
  let r := do_POST ascii_console e_acute (fresh level_5 []) in
  let r' := do_POST rt (post_length `"0_2") (fresh empty_object []) in
  int_error rt [233%N]
  = `"invalid literal for int() with base 10: '" ++ [233%N] ++ `"'"
  /\ fst r = inl UnicodeEncodeError
  /\ status (snd r) = None
  /\ headers_out (snd r) = []
  /\ wfile (snd r) = []
  /\ console (snd r) = []
  /\ fst r' = inr tt
  /\ status (snd r') = Some 200.
Proof. vm_compute. repeat split. Qed.


(** A [Content-Length] that is not a number, on a console that shows
    the message. *)
Example content_length_text :
  let req := {| path := `"/logs";
                headers := [(`"content-length", `"12a")] |} in
  header_get (headers req) `"Content-Length" = Some `"12a"
  /\ status (snd (do_POST rt req (fresh level_5 []))) = Some 400
  /\ console (snd (do_POST rt req (fresh level_5 [])))
     = [Note (ValueError
                `"invalid literal for int() with base 10: '12a'")].
Proof. vm_compute. repeat split. Qed.

End Run.


(* ================================================================== *)
(** ** The further properties on concrete requests *)

Module More.

Import Sample.
Import Host.

Lemma root_not_logs : path root <> `"/logs".
Proof. apply str_eqb_neq. reflexivity. Defined.

Lemma routes_are_exact_witness :
  path root <> `"/logs"
  /\ status (snd (handle rt POST root (fresh [] []))) = Some 404
  /\ wfile (snd (handle rt POST root (fresh [] []))) = [].
Proof.
  split; [exact root_not_logs|].
  pose proof (@routes_are_exact rt POST root [] []
                (or_introl (conj eq_refl root_not_logs)))
    as (_ & Hs & _ & _ & Hw & _).
  exact (conj Hs Hw).
Defined.

Lemma reads_content_length_bytes_witness :
  path (post_length `"2") = `"/logs"
  /\ int_of_header rt (header_get (headers (post_length `"2"))
                         `"Content-Length") = inr 2%Z
  /\ (0 <= 2)%Z
  /\ rfile (snd (do_POST rt (post_length `"2") (fresh two_requests [])))
     = blit "POST /x"
  /\ status (snd (do_POST rt (post_length `"2") (fresh empty_object [])))
     = status (snd (do_POST rt (post_length `"2") (fresh two_requests []))).
Proof.
  split; [reflexivity|]. split; [reflexivity|]. split; [discriminate|].
  pose proof (proj1 (@reads_content_length_bytes rt (post_length `"2")
                       two_requests [] 2%Z eq_refl eq_refl
                       ltac:(discriminate))
                ltac:(discriminate) eq_refl) as (Hr & Hsame).
  split; [exact Hr|].
  exact (proj1 (proj2 (Hsame empty_object eq_refl))).
Defined.

(** A [Content-Length] of 2^63, one more than [sys.maxsize], and one of
    2^40, more than the machine gives. *)
Example content_length_too_large :
  let r := do_POST rt (post_length `"9223372036854775808")
             (fresh two_requests []) in
  let r' := do_POST rt (post_length `"1099511627776")
              (fresh two_requests []) in
  status (snd r) = Some 400
  /\ console (snd r) = [Note OverflowError]
  /\ rfile (snd r) = two_requests
  /\ status (snd r') = Some 400
  /\ console (snd r') = [Note MemoryError]
  /\ rfile (snd r') = two_requests.
Proof. vm_compute. repeat split. Qed.

Lemma negative_content_length_witness :
  path (post_length `"-1") = `"/logs"
  /\ int_of_header rt (header_get (headers (post_length `"-1"))
                         `"Content-Length") = inr (-1)%Z
  /\ (-1 < 0)%Z
  /\ rfile (snd (do_POST rt (post_length `"-1") (fresh two_requests [])))
     = [].
Proof.
  split; [reflexivity|]. split; [reflexivity|]. split; [reflexivity|].
  exact (proj1 (proj1 (@negative_content_length rt (post_length `"-1")
                         two_requests [] (-1)%Z eq_refl eq_refl eq_refl)
                  eq_refl eq_refl)).
Defined.

(** A [Content-Length] of [-2], and one of [-2^63 - 1]. *)
Example content_length_below :
  let r := do_POST rt (post_length `"-2") (fresh two_requests []) in
  let r' := do_POST rt (post_length `"-9223372036854775809")
              (fresh two_requests []) in
  status (snd r) = Some 400
  /\ console (snd r)
     = [Note (ValueError `"read length must be non-negative or -1")]
  /\ rfile (snd r) = two_requests
  /\ status (snd r') = Some 400
  /\ console (snd r') = [Note OverflowError]
  /\ rfile (snd r') = two_requests.
Proof. vm_compute. repeat split. Qed.

Lemma lower_case_headers :
  same_headers [ (`"Content-Length", `"2") ] [ (`"content-length", `"2") ].
Proof. repeat constructor. Defined.

Lemma header_names_ignore_case_witness :
  same_headers [ (`"Content-Length", `"2") ] [ (`"content-length", `"2") ]
  /\ do_POST rt {| path := `"/logs";
                   headers := [ (`"Content-Length", `"2") ] |}
       (fresh empty_object [])
     = do_POST rt {| path := `"/logs";
                     headers := [ (`"content-length", `"2") ] |}
         (fresh empty_object []).
Proof.
  split; [exact lower_case_headers|].
  exact (@header_names_ignore_case rt `"/logs" _ _ (fresh empty_object [])
           lower_case_headers).
Defined.

Lemma only_level (s : str) (k : str) :
  k <> `"level" ->
  dict_get [(`"level", VStr s)] k = dict_get [(`"level", VStr `"INFO")] k.
Proof.
  intros Hk. cbn [dict_get].
  destruct (str_eqb `"level" k) eqn:E; [|reflexivity].
  apply str_eqb_eq in E. congruence.
Defined.

Lemma level_ignores_case_witness :
  lower_ascii `"Info" = lower_ascii `"INFO"
  /\ get_fields rt (VDict [(`"level", VStr `"Info")])
     = get_fields rt (VDict [(`"level", VStr `"INFO")]).
Proof.
  split; [reflexivity|].
  exact (proj1 (@level_ignores_case rt [(`"level", VStr `"Info")]
                  [(`"level", VStr `"INFO")] `"Info" `"INFO"
                  (only_level `"Info") eq_refl eq_refl eq_refl)).
Defined.

Lemma time_is_cut_by_position_witness :
  timestamp (fields_of rt noon `"INFO") = VStr `"yesterday around noon"
  /\ exists tail,
       log_line rt (fields_of rt noon `"INFO")
       = inr (slice 11 19 `"yesterday around noon" ++ `" " ++ tail)
       /\ List.length (slice 11 19 `"yesterday around noon")
          = Nat.min 8 (List.length `"yesterday around noon" - 11).
Proof.
  split; [reflexivity|].
  destruct (@time_is_cut_by_position rt (fields_of rt noon `"INFO")
              `"yesterday around noon" eq_refl) as (tail & Hl & Hlen & _).
  exists tail. exact (conj Hl Hlen).
Defined.

Lemma isoformat_shows_clock_witness :
  timestamp (fields_of rt [] `"INFO") = VStr (isoformat (now rt))
  /\ exists tail,
       log_line rt (fields_of rt [] `"INFO")
       = inr (clock (now rt) ++ `" " ++ tail)
       /\ clock (now rt) = `"09:30:45".
Proof.
  split; [reflexivity|].
  destruct (@isoformat_shows_clock rt (fields_of rt [] `"INFO") (now rt)
              eq_refl) as (tail & Hl & _).
  exists tail. split; [exact Hl | reflexivity].
Defined.

Lemma utf8_decode_encode_witness :
  utf8_encode accented = Some accented_bytes
  /\ utf8_decode accented_bytes = Some accented.
Proof.
  split; [reflexivity|].
  exact (@utf8_decode_encode accented accented_bytes eq_refl).
Defined.

Lemma do_GET_root_witness :
  path root = `"/"
  /\ status (snd (do_GET rt root (fresh [] []))) = Some 200
  /\ console (snd (do_GET rt root (fresh [] []))) = [].
Proof.
  split; [reflexivity|].
  pose proof (@do_GET_root rt root [] [] eq_refl)
    as (Hs & _ & _ & _ & Hc & _).
  exact (conj Hs Hc).
Defined.

Lemma root_page_is_served_witness :
  local_ip rt = fst (get_local_ip up 0)
  /\ path root = `"/"
  /\ fst (do_GET rt root (fresh [] [])) = inr tt
  /\ utf8_decode (wfile (snd (do_GET rt root (fresh [] []))))
     = Some (status_page rt)
  /\ contains `"http://192.168.1.20:8080/logs" (status_page rt).
Proof.
  split; [reflexivity|]. split; [reflexivity|].
  pose proof (@root_page_is_served rt up 0 root [] [] eq_refl eq_refl)
    as (Hr & _ & Hd & Hu).
  exact (conj Hr (conj Hd Hu)).
Defined.


(** On a console that has Latin-1 only, the banner stops at its fourth
    line. *)
Example banner_on_latin1 :
  fst (announce latin1 `"192.168.1.20" 8080 (fresh [] []))
  = inl UnicodeEncodeError
  /\ console (snd (announce latin1 `"192.168.1.20" 8080 (fresh [] [])))
     = [ Line (repeat 61%N 60); Line `"PoseTrainer Log Receiver";
         Line (repeat 61%N 60) ].
Proof. vm_compute. split; reflexivity. Qed.

(** Without a route, the address shown is the loopback address. *)
Example no_route : get_local_ip down 3 = (`"127.0.0.1", 3).
Proof. reflexivity. Qed.

End More.
